(** * The advertising-panel server (src/server/index.js)

    A shallow embedding of the Express handlers of [server/index.js] and of
    the helpers they share, followed by the properties of the server that
    the specification states.

    Conventions of the embedding.
    - A JSON value that reaches a handler ([req.body] fields, the decoded
      token payload) is a [jsval]; numbers are the integer-valued ones, and
      arrays and objects are left out.
    - The MySQL pool is a record of tables, each a list of rows in insertion
      order; a row carries the columns that the statements of the source
      name.  A statement is a function on the tables; [pool_select] and
      [pool_insert] wrap it with the possibility that the pool rejects the
      query, which the handlers turn into a 500 in their [catch].
    - [Math.random()], [Date.now()] and MySQL's [NOW()] are oracles held in
      the world: a sequence of draws in the unit interval and two clock
      readings in milliseconds.  Arithmetic on a draw is exact (rationals);
      the rounding of binary64 moves [1000 + r * 9000] by at most 2^-39,
      so it may change which draw gives which code, not the codes that can
      be given.
    - Express answers a request with the first handler registered for its
      path: the second registration of [GET /api/link/:code/content] at the
      end of the file adds nothing and is not modelled.
    - [bcrypt], [jsonwebtoken], [crypto] and the Razorpay client are
      libraries outside the repository: they are the fields of the class
      [Platform], with the environment of the process and MySQL's [=].
    - The [while (true)] of [generateUniqueLinkCode] is run with a bound on
      the number of turns; [Hang] is the result of a run that the bound cut
      short, so that "never returns" reads "[Hang] for every bound". *)

From Stdlib Require Import ZArith QArith Qround List String Ascii Bool Lia.
From Stdlib Require Import DecimalString.
From Stdlib Require DecimalPos DecimalZ.
Import ListNotations.

Local Open Scope string_scope.
Local Open Scope Z_scope.

(** ** JavaScript values *)

Module Js.

Inductive jsval : Type :=
| JUndefined
| JNull
| JBool (b : bool)
| JNum (n : Z)
| JStr (s : string).

(** ToBoolean, as used by [!x], [x && y] and [x || y]. *)
Definition truthy (v : jsval) : bool :=
  match v with
  | JUndefined | JNull => false
  | JBool b => b
  | JNum n => negb (n =? 0)
  | JStr s => negb (s =? EmptyString)%string
  end.

(** [Number.prototype.toString()] on an integer: its decimal numeral. *)
Definition num_toString (n : Z) : string :=
  NilZero.string_of_int (Z.to_int n).

(** ToString, as applied by [+] next to a string and by template literals. *)
Definition toString (v : jsval) : string :=
  match v with
  | JUndefined => "undefined"
  | JNull => "null"
  | JBool true => "true"
  | JBool false => "false"
  | JNum n => num_toString n
  | JStr s => s
  end.

(** [a === b] on primitive values. *)
Definition strict_eq (a b : jsval) : bool :=
  match a, b with
  | JUndefined, JUndefined => true
  | JNull, JNull => true
  | JBool x, JBool y => Bool.eqb x y
  | JNum x, JNum y => x =? y
  | JStr x, JStr y => (x =? y)%string
  | _, _ => false
  end.

(** [a || b]. *)
Definition or_else (a b : jsval) : jsval := if truthy a then a else b.

(** [s.split(sep)] for a separator of one character. *)
Fixpoint split (sep : ascii) (s : string) : list string :=
  match s with
  | EmptyString => [EmptyString]
  | String c rest =>
      if Ascii.eqb c sep then EmptyString :: split sep rest
      else match split sep rest with
           | [] => [String c EmptyString]
           | h :: t => String c h :: t
           end
  end.

(** [xs[i]] read as a value that may be [undefined]. *)
Definition index {A : Type} (xs : list A) (i : nat) : option A := nth_error xs i.

Definition is_digit (c : ascii) : bool :=
  let n := nat_of_ascii c in (48 <=? n)%nat && (n <=? 57)%nat.

(** The regular expression [^[0-9]{4}$]. *)
Definition four_digits (s : string) : bool :=
  match s with
  | String a (String b (String c (String d EmptyString))) =>
      is_digit a && is_digit b && is_digit c && is_digit d
  | _ => false
  end.

End Js.
Export Js.

(** ** The tables of the pool

    One module per table, with the columns that the statements of the source
    read or write ([user_packages] and [payments] are the tables of the plan
    that the payment handlers are meant to update). *)

Module Users.
Record row := { id : jsval; email : string; password_hash : string }.
End Users.

Module Media.
Record row :=
  { user_id : jsval; type : string; file_path : string; group_id : jsval }.
End Media.

Module Links.
Record row :=
  { user_id : jsval; link_code : string; group_id : jsval;
    created_at : Z; expires_at : Z }.
End Links.

Module PaymentSettings.
Record row := { razorpay_key_id : string; razorpay_key_secret : string }.
End PaymentSettings.

Module UserPackages.
Record row := { user_id : jsval; package_id : jsval; active : bool }.
End UserPackages.

Module Payments.
Record row :=
  { user_id : jsval; package_id : jsval; amount : Z;
    payment_type : string; status : string }.
End Payments.

(** The Razorpay client, as far as the server reads it. *)
Record Razorpay := { key_id : string; key_secret : string }.

(** [io.to(room).emit(event, { groupId })]. *)
Record Emit := { room : string; event : string; groupId : jsval }.

(** ** The world a handler runs in *)

Record World := {
  users : list Users.row;
  media : list Media.row;
  links : list Links.row;
  payment_settings : list PaymentSettings.row;
  user_packages : list UserPackages.row;
  payments : list Payments.row;
  razorpayInstance : option Razorpay;   (* [let razorpayInstance = null] *)
  emitted : list Emit;                  (* what [io] has sent so far *)
  queries : nat;                        (* queries handed to the pool so far *)
  draws : nat;                          (* calls of [Math.random] so far *)
  pool_ok : nat -> bool;                (* does the pool answer query number k? *)
  random : nat -> Q;                    (* the k-th value of [Math.random()] *)
  date_now : Z;                         (* [Date.now()], milliseconds *)
  db_now : Z                            (* MySQL's [NOW()], milliseconds *)
}.

Definition set_media (f : list Media.row -> list Media.row) (w : World) : World :=
  {| users := users w; media := f (media w); links := links w;
     payment_settings := payment_settings w; user_packages := user_packages w;
     payments := payments w; razorpayInstance := razorpayInstance w;
     emitted := emitted w; queries := queries w; draws := draws w;
     pool_ok := pool_ok w; random := random w;
     date_now := date_now w; db_now := db_now w |}.

Definition set_links (f : list Links.row -> list Links.row) (w : World) : World :=
  {| users := users w; media := media w; links := f (links w);
     payment_settings := payment_settings w; user_packages := user_packages w;
     payments := payments w; razorpayInstance := razorpayInstance w;
     emitted := emitted w; queries := queries w; draws := draws w;
     pool_ok := pool_ok w; random := random w;
     date_now := date_now w; db_now := db_now w |}.

Definition set_payment_settings
    (f : list PaymentSettings.row -> list PaymentSettings.row) (w : World) : World :=
  {| users := users w; media := media w; links := links w;
     payment_settings := f (payment_settings w); user_packages := user_packages w;
     payments := payments w; razorpayInstance := razorpayInstance w;
     emitted := emitted w; queries := queries w; draws := draws w;
     pool_ok := pool_ok w; random := random w;
     date_now := date_now w; db_now := db_now w |}.

Definition set_razorpayInstance (r : option Razorpay) (w : World) : World :=
  {| users := users w; media := media w; links := links w;
     payment_settings := payment_settings w; user_packages := user_packages w;
     payments := payments w; razorpayInstance := r;
     emitted := emitted w; queries := queries w; draws := draws w;
     pool_ok := pool_ok w; random := random w;
     date_now := date_now w; db_now := db_now w |}.

Definition set_emitted (f : list Emit -> list Emit) (w : World) : World :=
  {| users := users w; media := media w; links := links w;
     payment_settings := payment_settings w; user_packages := user_packages w;
     payments := payments w; razorpayInstance := razorpayInstance w;
     emitted := f (emitted w); queries := queries w; draws := draws w;
     pool_ok := pool_ok w; random := random w;
     date_now := date_now w; db_now := db_now w |}.

Definition tick_query (w : World) : World :=
  {| users := users w; media := media w; links := links w;
     payment_settings := payment_settings w; user_packages := user_packages w;
     payments := payments w; razorpayInstance := razorpayInstance w;
     emitted := emitted w; queries := S (queries w); draws := draws w;
     pool_ok := pool_ok w; random := random w;
     date_now := date_now w; db_now := db_now w |}.

Definition tick_draw (w : World) : World :=
  {| users := users w; media := media w; links := links w;
     payment_settings := payment_settings w; user_packages := user_packages w;
     payments := payments w; razorpayInstance := razorpayInstance w;
     emitted := emitted w; queries := queries w; draws := S (draws w);
     pool_ok := pool_ok w; random := random w;
     date_now := date_now w; db_now := db_now w |}.

Definition set_random (r : nat -> Q) (w : World) : World :=
  {| users := users w; media := media w; links := links w;
     payment_settings := payment_settings w; user_packages := user_packages w;
     payments := payments w; razorpayInstance := razorpayInstance w;
     emitted := emitted w; queries := queries w; draws := draws w;
     pool_ok := pool_ok w; random := r;
     date_now := date_now w; db_now := db_now w |}.

(** ** Asynchronous computations

    An [async] body either settles with a value, rejects (an exception or a
    rejected promise), or is still running when the bound on the allocation
    loop is reached. *)

Inductive outcome (A : Type) : Type :=
| Ret (a : A)
| Throw
| Hang.
Arguments Ret {A} a.
Arguments Throw {A}.
Arguments Hang {A}.

Definition M (A : Type) : Type := World -> outcome A * World.

Definition ret {A : Type} (a : A) : M A := fun w => (Ret a, w).
Definition throw {A : Type} : M A := fun w => (Throw, w).

Definition bind {A B : Type} (m : M A) (k : A -> M B) : M B :=
  fun w =>
    match m w with
    | (Ret a, w') => k a w'
    | (Throw, w') => (Throw, w')
    | (Hang, w') => (Hang, w')
    end.

(** [try { m } catch (error) { h }]. *)
Definition try_catch {A : Type} (m : M A) (h : M A) : M A :=
  fun w =>
    match m w with
    | (Throw, w') => h w'
    | r => r
    end.

Declare Scope async_scope.
Delimit Scope async_scope with async.
Notation "x <- c ;; k" := (bind c (fun x => k))
  (at level 61, c at next level, right associativity) : async_scope.
Notation "c ;;; k" := (bind c (fun _ => k))
  (at level 61, right associativity) : async_scope.
Local Open Scope async_scope.

(** [await pool.query(sql, params)] for a statement that reads: the rows, or
    a rejection when the pool does not answer. *)
Definition pool_select {A : Type} (rows : World -> A) : M A :=
  fun w =>
    if pool_ok w (queries w) then (Ret (rows w), tick_query w)
    else (Throw, tick_query w).

(** [await pool.query(sql, params)] for a statement that writes. *)
Definition pool_insert (stmt : World -> World) : M unit :=
  fun w =>
    if pool_ok w (queries w) then (Ret tt, stmt (tick_query w))
    else (Throw, tick_query w).

(** [Math.random()]. *)
Definition Math_random : M Q :=
  fun w => (Ret (random w (draws w)), tick_draw w).

(** [Math.floor]. *)
Definition Math_floor (x : Q) : Z := Qfloor x.

(** [Date.now()]. *)
Definition Date_now : M Z := fun w => (Ret (date_now w), w).

(** [io.to(room).emit(event, { groupId })]. *)
Definition io_emit (room event : string) (groupId : jsval) : M unit :=
  fun w =>
    (Ret tt,
     set_emitted
       (fun sent =>
          (sent ++ [ {| room := room; event := event; groupId := groupId |} ])%list)
       w).

(** ** Requests and responses *)

(** The payload that [jwt.sign] packs and [jwt.verify] hands back. *)
Record Claims := { userId : jsval; email : jsval }.

(** A file as multer leaves it in [req.files]. *)
Record File := { mimetype : string; filename : string }.

Record Req := {
  authorization : option string;     (* [req.headers['authorization']] *)
  body : list (string * jsval);      (* [req.body] *)
  params_code : string;              (* [req.params.code] *)
  files : option (list File);        (* [req.files] *)
  user : option Claims               (* [req.user] *)
}.

(** [req.body.name]: [undefined] when the body has no such field. *)
Fixpoint field (name : string) (fields : list (string * jsval)) : jsval :=
  match fields with
  | [] => JUndefined
  | (k, v) :: rest => if (k =? name)%string then v else field name rest
  end.

Definition set_user (u : Claims) (req : Req) : Req :=
  {| authorization := authorization req; body := body req;
     params_code := params_code req; files := files req; user := Some u |}.

(** The objects handed to [res.json]. *)
Inductive Json : Type :=
| error_ (error : string)
| message_ (message : string)
| token_ (token : string)
| link_ (link : string)
| media_ (rows : list Media.row)
| razorpay_key_id_ (razorpay_key_id : string).

Record Response := { status : Z; json : Json }.

(** [res.status(code).json(obj)]; [res.json(obj)] is [respond 200 obj]. *)
Definition respond (code : Z) (obj : Json) : Response :=
  {| status := code; json := obj |}.

(** The kinds of the error taxonomy, by status and body. *)
Definition Unauthorized (r : Response) : Prop := status r = 401.
Definition Forbidden (r : Response) : Prop := status r = 403.
Definition ValidationError (r : Response) : Prop := status r = 400.
Definition NotFound (r : Response) : Prop := status r = 404.
Definition InvalidSignature (r : Response) : Prop :=
  r = respond 400 (error_ "Invalid payment signature").

(** What [jwt.verify] passes as [err]. *)
Inductive JwtError : Type :=
| TokenExpiredError
| JsonWebTokenError (message : string)
| NotBeforeError.

(** An Express middleware either answers or calls [next()] with the request
    it may have extended. *)
Definition Middleware : Type := Req -> Response + Req.

(** [app.METHOD(path, mw1, ..., handler)]. *)
Fixpoint route (mws : list Middleware) (handler : Req -> M Response) (req : Req)
  : M Response :=
  match mws with
  | [] => handler req
  | mw :: rest =>
      match mw req with
      | inl res => ret res
      | inr req' => route rest handler req'
      end
  end.

(** How a value sent as a parameter reads back from a text column. *)
Definition sql_text (v : jsval) : string :=
  match v with
  | JBool true => "1"
  | JBool false => "0"
  | JUndefined | JNull => EmptyString
  | _ => toString v
  end.

(** ** The platform

    The environment of the process and the libraries the server calls. *)

Class Platform : Type := {
  (** [process.env.JWT_SECRET] and [process.env.DOMAIN]. *)
  env_JWT_SECRET : option string;
  env_DOMAIN : option string;
  (** [jwt.verify(token, secret, callback)]: the error or the decoded payload. *)
  jwt_verify : string -> string -> JwtError + Claims;
  (** [jwt.sign(payload, secret, { expiresIn: '1d' })]. *)
  jwt_sign : Claims -> string -> string;
  (** [bcrypt.compare(data, hash)]: [None] when the promise rejects. *)
  bcrypt_compare : jsval -> string -> option bool;
  (** [crypto.createHmac('sha256', key).update(data).digest('hex')]. *)
  createHmac_sha256_hex : string -> string -> string;
  (** Whether [new Razorpay({ key_id, key_secret })] returns rather than throws. *)
  Razorpay_accepts : string -> string -> bool;
  (** MySQL's [=] between a column and a parameter. *)
  sql_eq : jsval -> jsval -> bool
}.

(** ** The server *)

Section Server.

Context {platform : Platform}.

(** [process.env.X || fallback]. *)
Definition env_or (x : option string) (fallback : string) : string :=
  match x with
  | Some s => if (s =? EmptyString)%string then fallback else s
  | None => fallback
  end.

Definition JWT_SECRET : string := env_or env_JWT_SECRET "your_jwt_secret".
Definition DOMAIN : string := env_or env_DOMAIN "http://localhost:4000".

Definition internal_server_error : M Response :=
  ret (respond 500 (error_ "Internal server error")).

(** *** Utility functions *)

(** [SELECT id FROM links WHERE link_code = ?]. *)
Definition links_with_code (code : string) (w : World) : list Links.row :=
  filter (fun l => sql_eq (JStr (Links.link_code l)) (JStr code)) (links w).

(** [generateUniqueLinkCode], for at most [turns] turns of its loop. *)
Fixpoint generateUniqueLinkCode (turns : nat) : M string :=
  match turns with
  | O => fun w => (Hang, w)
  | S turns' =>
      u <- Math_random ;;
      let code := num_toString (Math_floor (inject_Z 1000 + u * inject_Z 9000)) in
      rows <- pool_select (links_with_code code) ;;
      if (List.length rows =? 0)%nat then ret code
      else generateUniqueLinkCode turns'
  end.

(** [authenticateToken]. *)
Definition authenticateToken : Middleware :=
  fun req =>
    match authorization req with
    | None => inl (respond 401 (error_ "No token provided"))
    | Some authHeader =>
        if negb (truthy (JStr authHeader))
        then inl (respond 401 (error_ "No token provided"))
        else
          match index (split " " authHeader) 1 with
          | None => inl (respond 401 (error_ "Malformed token"))
          | Some token =>
              if negb (truthy (JStr token))
              then inl (respond 401 (error_ "Malformed token"))
              else
                match jwt_verify token JWT_SECRET with
                | inl err => inl (respond 403 (error_ "Invalid token"))
                | inr user => inr (set_user user req)
                end
          end
    end.

(** [new Razorpay({ key_id, key_secret })]. *)
Definition new_Razorpay (id secret : string) : M Razorpay :=
  if Razorpay_accepts id secret
  then ret {| key_id := id; key_secret := secret |}
  else throw.

(** [SELECT razorpay_key_id, razorpay_key_secret FROM payment_settings
    ORDER BY updated_at DESC LIMIT 1]: rows are kept in the order of their
    insertion, which is the order of [updated_at]. *)
Definition latest_payment_settings (w : World) : list PaymentSettings.row :=
  match rev (payment_settings w) with
  | [] => []
  | r :: _ => [r]
  end.

Definition assign_razorpayInstance (r : option Razorpay) : M unit :=
  fun w => (Ret tt, set_razorpayInstance r w).

(** [loadRazorpayKeys]. *)
Definition loadRazorpayKeys : M unit :=
  try_catch
    (rows <- pool_select latest_payment_settings ;;
     match rows with
     | [] => assign_razorpayInstance None
     | r :: _ =>
         rz <- new_Razorpay (PaymentSettings.razorpay_key_id r)
                            (PaymentSettings.razorpay_key_secret r) ;;
         assign_razorpayInstance (Some rz)
     end)
    (assign_razorpayInstance None).

(** *** Routes *)

(** [SELECT id, password_hash FROM users WHERE email = ?]. *)
Definition users_with_email (email : jsval) (w : World) : list Users.row :=
  filter (fun u => sql_eq (JStr (Users.email u)) email) (users w).

(** [await bcrypt.compare(password, hash)]. *)
Definition await_bcrypt_compare (password : jsval) (hash : string) : M bool :=
  match bcrypt_compare password hash with
  | Some b => ret b
  | None => throw
  end.

(** The handler of [POST /api/login]. *)
Definition login (req : Req) : M Response :=
  try_catch
    (let email := field "email" (body req) in
     let password := field "password" (body req) in
     if negb (truthy email && truthy password)
     then ret (respond 400 (error_ "Email and password are required"))
     else
       rows <- pool_select (users_with_email email) ;;
       match rows with
       | [] => ret (respond 401 (error_ "Invalid credentials"))
       | user :: _ =>
           match_ <- await_bcrypt_compare password (Users.password_hash user) ;;
           if negb match_
           then ret (respond 401 (error_ "Invalid credentials"))
           else
             let token :=
               jwt_sign {| userId := Users.id user; email := email |} JWT_SECRET in
             ret (respond 200 (token_ token))
       end)
    internal_server_error.

(** [req.user.userId]: a [TypeError] when [req.user] is not set. *)
Definition req_user (req : Req) : M Claims :=
  match user req with
  | Some u => ret u
  | None => throw
  end.

(** [file.mimetype.split('/')[0]]. *)
Definition media_type (file : File) : string :=
  match index (split "/" (mimetype file)) 0 with
  | Some t => t
  | None => EmptyString
  end.

(** [INSERT INTO media (user_id, type, file_path, group_id) VALUES ?]. *)
Definition insert_media (insertValues : list Media.row) : World -> World :=
  set_media (fun rows => (rows ++ insertValues)%list).

(** The handler of [POST /api/media/upload]. *)
Definition media_upload (req : Req) : M Response :=
  try_catch
    (u <- req_user req ;;
     let userId := userId u in
     match files req with
     | None | Some [] => ret (respond 400 (error_ "No files uploaded"))
     | Some files =>
         let groupId := or_else (field "groupId" (body req)) JNull in
         let insertValues :=
           map (fun file =>
                  {| Media.user_id := userId; Media.type := media_type file;
                     Media.file_path := filename file; Media.group_id := groupId |})
               files in
         pool_insert (insert_media insertValues) ;;;
         io_emit ("user_" ++ toString userId) "mediaUpdated" groupId ;;;
         ret (respond 200 (message_ "Files uploaded successfully"))
     end)
    internal_server_error.

(** [SELECT * FROM media WHERE user_id = ?]. *)
Definition media_of_user (userId : jsval) (w : World) : list Media.row :=
  filter (fun m => sql_eq (Media.user_id m) userId) (media w).

(** The handler of [GET /api/media/list]. *)
Definition media_list (req : Req) : M Response :=
  try_catch
    (u <- req_user req ;;
     rows <- pool_select (media_of_user (userId u)) ;;
     ret (respond 200 (media_ rows)))
    internal_server_error.

(** [INSERT INTO links (user_id, link_code, group_id, created_at, expires_at)
    VALUES (?, ?, ?, NOW(), ?)]. *)
Definition insert_link (userId : jsval) (code : string) (groupId : jsval)
    (expiresAt : Z) (w : World) : World :=
  set_links
    (fun rows =>
       (rows ++ [ {| Links.user_id := userId; Links.link_code := code;
                     Links.group_id := groupId; Links.created_at := db_now w;
                     Links.expires_at := expiresAt |} ])%list)
    w.

(** The handler of [POST /api/link/generate]. *)
Definition link_generate (turns : nat) (req : Req) : M Response :=
  try_catch
    (u <- req_user req ;;
     let userId := userId u in
     let groupId := field "groupId" (body req) in
     if negb (truthy groupId)
     then ret (respond 400 (error_ "Group ID is required"))
     else
       code <- generateUniqueLinkCode turns ;;
       now <- Date_now ;;
       let expiresAt := now + 30 * 24 * 60 * 60 * 1000 in
       pool_insert (insert_link userId code groupId expiresAt) ;;;
       ret (respond 200 (link_ (DOMAIN ++ "/" ++ code))))
    internal_server_error.

(** [SELECT * FROM links WHERE link_code = ? AND expires_at > NOW()]. *)
Definition live_links_with_code (code : string) (w : World) : list Links.row :=
  filter
    (fun l => sql_eq (JStr (Links.link_code l)) (JStr code)
              && (Links.expires_at l >? db_now w))
    (links w).

(** [SELECT * FROM media WHERE group_id = ? AND user_id = ?]. *)
Definition media_of_group (group_id user_id : jsval) (w : World) : list Media.row :=
  filter
    (fun m => sql_eq (Media.group_id m) group_id && sql_eq (Media.user_id m) user_id)
    (media w).

(** The handler of [GET /api/link/:code/content]. *)
Definition link_content (req : Req) : M Response :=
  try_catch
    (let code := params_code req in
     links <- pool_select (live_links_with_code code) ;;
     match links with
     | [] => ret (respond 404 (error_ "Link not found or expired"))
     | link :: _ =>
         media <- pool_select
                    (media_of_group (Links.group_id link) (Links.user_id link)) ;;
         ret (respond 200 (media_ media))
     end)
    internal_server_error.

(** [verifySuperAdmin]. *)
Definition verifySuperAdmin : Middleware :=
  fun req =>
    match user req with
    | Some u =>
        if strict_eq (email u) (JStr "admin@gnetworkservices.in")
        then inr req
        else inl (respond 403 (error_ "Forbidden: Super admin only"))
    | None => inl (respond 403 (error_ "Forbidden: Super admin only"))
    end.

(** The handler of [GET /api/admin/payment-settings]. *)
Definition get_payment_settings (req : Req) : M Response :=
  try_catch
    (rows <- pool_select latest_payment_settings ;;
     match rows with
     | [] => ret (respond 404 (error_ "Payment settings not configured"))
     | r :: _ => ret (respond 200 (razorpay_key_id_ (PaymentSettings.razorpay_key_id r)))
     end)
    internal_server_error.

(** [INSERT INTO payment_settings (razorpay_key_id, razorpay_key_secret)
    VALUES (?, ?)]. *)
Definition insert_payment_settings (id secret : jsval) : World -> World :=
  set_payment_settings
    (fun rows =>
       (rows ++ [ {| PaymentSettings.razorpay_key_id := sql_text id;
                     PaymentSettings.razorpay_key_secret := sql_text secret |} ])%list).

(** The handler of [POST /api/admin/payment-settings]. *)
Definition post_payment_settings (req : Req) : M Response :=
  try_catch
    (let razorpay_key_id := field "razorpay_key_id" (body req) in
     let razorpay_key_secret := field "razorpay_key_secret" (body req) in
     if negb (truthy razorpay_key_id && truthy razorpay_key_secret)
     then ret (respond 400 (error_ "Razorpay key ID and secret are required"))
     else
       pool_insert (insert_payment_settings razorpay_key_id razorpay_key_secret) ;;;
       loadRazorpayKeys ;;;
       ret (respond 200 (message_ "Payment settings updated")))
    internal_server_error.

Definition read_razorpayInstance : M (option Razorpay) :=
  fun w => (Ret (razorpayInstance w), w).

(** The handler of [POST /api/payment/verify]. *)
Definition payment_verify (req : Req) : M Response :=
  try_catch
    (instance <- read_razorpayInstance ;;
     match instance with
     | None => ret (respond 500 (error_ "Payment gateway not configured"))
     | Some rz =>
         let razorpay_order_id := field "razorpay_order_id" (body req) in
         let razorpay_payment_id := field "razorpay_payment_id" (body req) in
         let razorpay_signature := field "razorpay_signature" (body req) in
         if negb (truthy razorpay_order_id && truthy razorpay_payment_id
                  && truthy razorpay_signature)
         then ret (respond 400 (error_ "Payment details are required"))
         else
           let generated_signature :=
             createHmac_sha256_hex (key_secret rz)
               (toString razorpay_order_id ++ "|" ++ toString razorpay_payment_id) in
           if negb (strict_eq (JStr generated_signature) razorpay_signature)
           then ret (respond 400 (error_ "Invalid payment signature"))
           else
             (* TODO: Update user package subscription status in DB *)
             ret (respond 200 (message_ "Payment verified successfully"))
     end)
    internal_server_error.

(** The handler of [POST /api/payment/offline]. *)
Definition payment_offline (req : Req) : M Response :=
  try_catch
    ((* TODO: Implement offline payment recording and update subscription *)
     ret (respond 200 (message_ "Offline payment recorded (placeholder)")))
    internal_server_error.

(** The routes, as [app.post] and [app.get] register them. *)
Definition POST_login : Req -> M Response := route [] login.
Definition POST_media_upload : Req -> M Response :=
  route [authenticateToken] media_upload.
Definition GET_media_list : Req -> M Response :=
  route [authenticateToken] media_list.
Definition POST_link_generate (turns : nat) : Req -> M Response :=
  route [authenticateToken] (link_generate turns).
Definition GET_link_content : Req -> M Response := route [] link_content.
Definition GET_admin_payment_settings : Req -> M Response :=
  route [authenticateToken; verifySuperAdmin] get_payment_settings.
Definition POST_admin_payment_settings : Req -> M Response :=
  route [authenticateToken; verifySuperAdmin] post_payment_settings.
Definition POST_payment_verify : Req -> M Response :=
  route [authenticateToken] payment_verify.
Definition POST_payment_offline : Req -> M Response :=
  route [authenticateToken] payment_offline.

End Server.

(** ** Notions used by the properties *)

(** [count] consecutive integers from [from] on. *)
Fixpoint upto (count : nat) (from : Z) : list Z :=
  match count with
  | O => []
  | S count' => from :: upto count' (from + 1)
  end.

(** The values [1000 .. 9999]. *)
Definition candidates : list Z := upto (Z.to_nat 9000) 1000.

(** The six tables of the store are the same in both worlds. *)
Definition same_tables (w w' : World) : Prop :=
  users w' = users w /\ media w' = media w /\ links w' = links w /\
  payment_settings w' = payment_settings w /\
  user_packages w' = user_packages w /\ payments w' = payments w.

(** Every value of [Math.random()] lies in the unit interval, 1 excluded. *)
Definition unit_draws (w : World) : Prop :=
  forall k, (0 <= random w k /\ random w k < 1)%Q.

(** The pool answers every query. *)
Definition pool_answers (w : World) : Prop := forall k, pool_ok w k = true.

(** Some row of [links] carries the code. *)
Definition assigned (code : string) (w : World) : Prop :=
  In code (map Links.link_code (links w)).

(** The row has not expired at the store's clock. *)
Definition live (w : World) (l : Links.row) : Prop := Links.expires_at l > db_now w.

(** The code that a draw makes the allocator try. *)
Definition code_of (u : Q) : string :=
  num_toString (Math_floor (inject_Z 1000 + u * inject_Z 9000)).

(** The value of [Math.random()] that makes the allocator try [n]. *)
Definition draw_for (n : Z) : Q := (n - 1000) # 9000.

(** [k] draws that give [n0], then draws that give [n1]. *)
Definition draws_then (k : nat) (n0 n1 : Z) (start : nat) : nat -> Q :=
  fun i => if (i <? start + k)%nat then draw_for n0 else draw_for n1.

(** MySQL's [=] is reflexive on text. *)
Definition sql_eq_reflexive_on_text {platform : Platform} : Prop :=
  forall s, sql_eq (JStr s) (JStr s) = true.

(** ** Sample platform, requests and worlds *)

Module Sample.

Definition alice : Claims := {| userId := JNum 7; email := JStr "alice@example.com" |}.
Definition admin : Claims :=
  {| userId := JNum 1; email := JStr "admin@gnetworkservices.in" |}.

Definition platform : Platform := {|
  env_JWT_SECRET := None;
  env_DOMAIN := None;
  jwt_verify := fun token _ =>
    if (token =? "alice.jwt")%string then inr alice
    else if (token =? "admin.jwt")%string then inr admin
    else if (token =? "old.jwt")%string then inl TokenExpiredError
    else inl (JsonWebTokenError "invalid signature");
  jwt_sign := fun claims _ => toString (userId claims) ++ ".jwt";
  bcrypt_compare := fun data hash =>
    match data with
    | JStr p => Some (hash =? "bcrypt:" ++ p)%string
    | _ => None
    end;
  createHmac_sha256_hex := fun key data => "hmac[" ++ key ++ "][" ++ data ++ "]";
  Razorpay_accepts := fun id secret =>
    negb (id =? EmptyString)%string && negb (secret =? EmptyString)%string;
  sql_eq := fun a b =>
    match a, b with
    | JNull, _ | _, JNull | JUndefined, _ | _, JUndefined => false
    | _, _ => strict_eq a b
    end
|}.

Definition link (code : string) (expires_at : Z) : Links.row :=
  {| Links.user_id := JNum 7; Links.link_code := code; Links.group_id := JNum 3;
     Links.created_at := 0; Links.expires_at := expires_at |}.

Definition slide : Media.row :=
  {| Media.user_id := JNum 7; Media.type := "image"; Media.file_path := "1-a.png";
     Media.group_id := JNum 3 |}.

Definition world (rows : list Links.row) (r : nat -> Q) : World :=
  {| users := [ {| Users.id := JNum 7; Users.email := "alice@example.com";
                   Users.password_hash := "bcrypt:pw123" |} ];
     media := [slide];
     links := rows;
     payment_settings := [];
     user_packages := [ {| UserPackages.user_id := JNum 7;
                           UserPackages.package_id := JNum 2;
                           UserPackages.active := false |} ];
     payments := [];
     razorpayInstance := Some {| key_id := "rzp_test"; key_secret := "s3cret" |};
     emitted := [];
     queries := 0;
     draws := 0;
     pool_ok := fun _ => true;
     random := r;
     date_now := 5000;
     db_now := 5000 |}.

(** A store with one expired link, one live link, and draws that try 1234
    and then 4321. *)
Definition w0 : World :=
  world [link "1234" 4000; link "2222" 9000] (draws_then 1 1234 4321 0).

(** A store without links. *)
Definition w_empty : World := world [] (fun _ => 0%Q).

(** A store in which every candidate is assigned. *)
Definition w_full : World :=
  world (map (fun n => link (num_toString n) 9000) candidates) (fun _ => 0%Q).

Definition request (auth : option string) (fields : list (string * jsval))
    (code : string) (fs : option (list File)) : Req :=
  {| authorization := auth; body := fields; params_code := code; files := fs;
     user := None |}.

Definition as_alice (fields : list (string * jsval)) : Req :=
  request (Some "Bearer alice.jwt") fields EmptyString None.

End Sample.

(** ** The rest of the server

    The routes and callbacks of [index.js] that the sections above do not
    need: registration, the names multer gives to stored files, the rooms of
    the socket server and the table of routes. *)

Definition set_users (f : list Users.row -> list Users.row) (w : World) : World :=
  {| users := f (users w); media := media w; links := links w;
     payment_settings := payment_settings w; user_packages := user_packages w;
     payments := payments w; razorpayInstance := razorpayInstance w;
     emitted := emitted w; queries := queries w; draws := draws w;
     pool_ok := pool_ok w; random := random w;
     date_now := date_now w; db_now := db_now w |}.

(** What registration needs beyond [Platform]. *)
Class Accounts : Type := {
  (** [bcrypt.hash(data, 10)]: [None] when the promise rejects. *)
  bcrypt_hash : jsval -> option string;
  (** The id that MySQL's AUTO_INCREMENT gives the next row of [users]. *)
  users_insertId : World -> jsval
}.

(** The objects that the handler of [POST /api/register] hands to [res.json]. *)
Inductive RegisterJson : Type :=
| register_error_ (error : string)
| registered_ (message : string) (userId : jsval).

Record RegisterResponse := { register_status : Z; register_json : RegisterJson }.

Definition register_respond (code : Z) (obj : RegisterJson) : RegisterResponse :=
  {| register_status := code; register_json := obj |}.

(** The [Conflict] kind of the error taxonomy. *)
Definition Conflict (r : RegisterResponse) : Prop := register_status r = 409.

Section Registration.

Context {platform : Platform} {accounts : Accounts}.

(** [await bcrypt.hash(password, 10)]. *)
Definition await_bcrypt_hash (password : jsval) : M string :=
  match bcrypt_hash password with
  | Some h => ret h
  | None => throw
  end.

(** [INSERT INTO users (name, email, password_hash) VALUES (?, ?, ?)], with
    the [insertId] of its result.  No statement of the server reads [name],
    and the rows of [users] do not carry it. *)
Definition insert_user (name email : jsval) (hashedPassword : string) : M jsval :=
  fun w =>
    if pool_ok w (queries w)
    then
      let insertId := users_insertId w in
      (Ret insertId,
       set_users
         (fun rows =>
            (rows ++ [ {| Users.id := insertId; Users.email := sql_text email;
                          Users.password_hash := hashedPassword |} ])%list)
         (tick_query w))
    else (Throw, tick_query w).

(** The handler of [POST /api/register]; its first statement is
    [SELECT id FROM users WHERE email = ?]. *)
Definition register (req : Req) : M RegisterResponse :=
  try_catch
    (let name := field "name" (body req) in
     let email := field "email" (body req) in
     let password := field "password" (body req) in
     if negb (truthy name && truthy email && truthy password)
     then ret (register_respond 400
                 (register_error_ "Name, email and password are required"))
     else
       existing <- pool_select (users_with_email email) ;;
       if (0 <? List.length existing)%nat
       then ret (register_respond 409 (register_error_ "Email already registered"))
       else
         hashedPassword <- await_bcrypt_hash password ;;
         insertId <- insert_user name email hashedPassword ;;
         ret (register_respond 201
                (registered_ "User registered successfully" insertId)))
    (ret (register_respond 500 (register_error_ "Internal server error"))).

Definition POST_register : Req -> M RegisterResponse := register.

End Registration.

(** [filename] of [multer.diskStorage]: [Date.now() + '-' + file.originalname]. *)
Definition storage_filename (now : Z) (originalname : string) : string :=
  toString (JNum now) ++ "-" ++ originalname.

(** Does the character occur in the string? *)
Fixpoint occurs (c : ascii) (s : string) : bool :=
  match s with
  | EmptyString => false
  | String a rest => Ascii.eqb a c || occurs c rest
  end.

(** The rooms of the socket server: which socket has joined which room. *)
Definition Rooms : Type := list (string * string).

(** [socket.on('joinUserRoom', (userId) => socket.join(`user_${userId}`))]. *)
Definition joinUserRoom (socket_id : string) (userId : jsval) (rooms : Rooms) : Rooms :=
  (socket_id, "user_" ++ toString userId) :: rooms.

(** Is the socket in the room that [io.to(room).emit] addressed? *)
Definition receives (rooms : Rooms) (socket_id : string) (e : Emit) : bool :=
  existsb (fun sr => (fst sr =? socket_id)%string && (snd sr =? room e)%string) rooms.

(** The routes that return a [Response], with whether they register
    [authenticateToken], in the order of the file. *)
Definition routes {platform : Platform} (turns : nat)
  : list (string * bool * (Req -> M Response)) :=
  [ ("POST /api/login", false, POST_login);
    ("POST /api/media/upload", true, POST_media_upload);
    ("GET /api/media/list", true, GET_media_list);
    ("POST /api/link/generate", true, POST_link_generate turns);
    ("GET /api/link/:code/content", false, GET_link_content);
    ("GET /api/admin/payment-settings", true, GET_admin_payment_settings);
    ("POST /api/admin/payment-settings", true, POST_admin_payment_settings);
    ("POST /api/payment/verify", true, POST_payment_verify);
    ("POST /api/payment/offline", true, POST_payment_offline) ].

(** The three tables that hold accounts, subscriptions and payments. *)
Definition same_accounts (w w' : World) : Prop :=
  users w' = users w /\ user_packages w' = user_packages w /\
  payments w' = payments w.

(** Samples for registration and for the administrator. *)
Module SampleAccounts.

Definition accounts : Accounts := {|
  bcrypt_hash := fun data =>
    match data with
    | JStr p => Some ("bcrypt:" ++ p)
    | _ => None
    end;
  users_insertId := fun w => JNum (8 + Z.of_nat (List.length (users w)))
|}.

Definition sign_up (email password : string) : Req :=
  Sample.request None
    [("name", JStr "Bob"); ("email", JStr email); ("password", JStr password)]
    EmptyString None.

Definition sign_in (email password : string) : Req :=
  Sample.request None [("email", JStr email); ("password", JStr password)]
    EmptyString None.

Definition as_admin (fields : list (string * jsval)) : Req :=
  Sample.request (Some "Bearer admin.jwt") fields EmptyString None.

Definition new_keys : list (string * jsval) :=
  [("razorpay_key_id", JStr "rzp_live"); ("razorpay_key_secret", JStr "n3w")].

(** [Sample.platform] with a [jwt.sign] whose tokens its [jwt.verify] accepts. *)
Definition signing : Platform := {|
  env_JWT_SECRET := None;
  env_DOMAIN := None;
  jwt_verify := jwt_verify (Platform := Sample.platform);
  jwt_sign := fun claims _ =>
    if strict_eq (userId claims) (JNum 7) then "alice.jwt"
    else if strict_eq (userId claims) (JNum 1) then "admin.jwt"
    else "forged.jwt";
  bcrypt_compare := bcrypt_compare (Platform := Sample.platform);
  createHmac_sha256_hex := createHmac_sha256_hex (Platform := Sample.platform);
  Razorpay_accepts := Razorpay_accepts (Platform := Sample.platform);
  sql_eq := sql_eq (Platform := Sample.platform)
|}.

(** The store of [Sample.w0] with draws that try 4321, 4322, ... in turn. *)
Definition w_counting : World :=
  Sample.world (links Sample.w0) (fun i => draw_for (4321 + Z.of_nat i)).

(** A pool that answers every query but the one numbered [k]. *)
Definition world_failing_at (k : nat) : World :=
  {| users := users Sample.w0; media := media Sample.w0; links := links Sample.w0;
     payment_settings := payment_settings Sample.w0;
     user_packages := user_packages Sample.w0; payments := payments Sample.w0;
     razorpayInstance := razorpayInstance Sample.w0; emitted := emitted Sample.w0;
     queries := 0; draws := 0;
     pool_ok := fun i => negb (i =? k)%nat; random := random Sample.w0;
     date_now := date_now Sample.w0; db_now := db_now Sample.w0 |}.

End SampleAccounts.

(** ** Properties *)

(** Unfolds the plumbing of [M] around a handler's body. *)
Ltac unfold_async :=
  unfold try_catch, bind, pool_select, pool_insert, req_user,
    read_razorpayInstance, await_bcrypt_compare, internal_server_error,
    Date_now, ret.

(** *** JavaScript helpers on small inputs *)

Example split_bearer : split " " "Bearer abc.def" = ["Bearer"; "abc.def"].
Proof. reflexivity. Qed.

Example split_no_space : index (split " " "Bearer") 1 = None.
Proof. reflexivity. Qed.

Example split_two_spaces : index (split " " "Bearer  x") 1 = Some EmptyString.
Proof. reflexivity. Qed.

Example split_mimetype : split "/" "image/png" = ["image"; "png"].
Proof. reflexivity. Qed.

Example toString_num : toString (JNum 1234) = "1234".
Proof. reflexivity. Qed.

Example four_digits_rejects : four_digits "123" = false /\ four_digits "12a4" = false.
Proof. split; reflexivity. Qed.

Example thirty_days : 30 * 24 * 60 * 60 * 1000 = 2592000000.
Proof. reflexivity. Qed.

(** *** Codes and draws *)

Lemma upto_range (count : nat) :
  forall from n, In n (upto count from) <-> from <= n < from + Z.of_nat count.
Proof.
  induction count as [| count IH]; intros from n; cbn [upto In].
  - lia.
  - rewrite IH. lia.
Qed.

Lemma candidates_range (n : Z) : In n candidates <-> 1000 <= n <= 9999.
Proof. unfold candidates. rewrite upto_range. lia. Qed.

Lemma candidates_four_digits :
  forallb (fun n => four_digits (num_toString n)) candidates = true.
Proof. vm_compute. reflexivity. Qed.

Lemma four_digits_in_range (n : Z) :
  1000 <= n <= 9999 -> four_digits (num_toString n) = true.
Proof.
  intros Hn. apply candidates_range in Hn.
  exact (proj1 (forallb_forall _ _) candidates_four_digits n Hn).
Qed.

Lemma floor_of_draw (u : Q) :
  (0 <= u /\ u < 1)%Q ->
  1000 <= Math_floor (inject_Z 1000 + u * inject_Z 9000) <= 9999.
Proof.
  intros [H0 H1]. unfold Math_floor. split.
  - rewrite <- (Qfloor_Z 1000) at 1. apply Qfloor_resp_le.
    rewrite <- (Qplus_0_r (inject_Z 1000)) at 1.
    apply Qplus_le_r. apply Qmult_le_0_compat; [exact H0 | discriminate].
  - assert (Hlt : (inject_Z 1000 + u * inject_Z 9000 < inject_Z 10000)%Q).
    { replace (inject_Z 10000) with (inject_Z 1000 + 1 * inject_Z 9000)%Q
        by reflexivity.
      apply Qplus_lt_r. apply Qmult_lt_compat_r; [reflexivity | exact H1]. }
    pose proof (Qfloor_le (inject_Z 1000 + u * inject_Z 9000)) as Hfl.
    assert (Hz : (inject_Z (Qfloor (inject_Z 1000 + u * inject_Z 9000))
                  < inject_Z 10000)%Q)
      by (eapply Qle_lt_trans; eassumption).
    rewrite <- Zlt_Qlt in Hz. lia.
Qed.

Lemma draw_for_unit (n : Z) :
  1000 <= n <= 9999 -> (0 <= draw_for n /\ draw_for n < 1)%Q.
Proof.
  intros Hn. unfold draw_for, Qle, Qlt. simpl. lia.
Qed.

Lemma floor_of_draw_for (n : Z) :
  Math_floor (inject_Z 1000 + draw_for n * inject_Z 9000) = n.
Proof.
  unfold Math_floor.
  assert (E : (inject_Z 1000 + draw_for n * inject_Z 9000 == inject_Z n)%Q).
  { unfold draw_for, Qeq, Qplus, Qmult, inject_Z. cbn [Qnum Qden]. lia. }
  rewrite E. apply Qfloor_Z.
Qed.

(** *** The allocation loop *)

Section Allocator.

Context {platform : Platform}.

(** One turn of the loop. *)
Lemma generateUniqueLinkCode_turn (turns : nat) (w : World) :
  generateUniqueLinkCode (S turns) w =
  let code := code_of (random w (draws w)) in
  let w1 := tick_query (tick_draw w) in
  if pool_ok w (queries w) then
    match links_with_code code w with
    | [] => (Ret code, w1)
    | _ :: _ => generateUniqueLinkCode turns w1
    end
  else (Throw, w1).
Proof.
  unfold code_of. cbn [generateUniqueLinkCode].
  unfold bind, Math_random, pool_select, ret.
  cbn [pool_ok queries tick_draw]. cbv zeta.
  set (code := num_toString _).
  destruct (pool_ok w (queries w)); [| reflexivity].
  change (links_with_code code (tick_draw w)) with (links_with_code code w).
  destruct (links_with_code code w); reflexivity.
Qed.

Lemma links_with_code_nil (code : string) (w : World) :
  sql_eq_reflexive_on_text ->
  links_with_code code w = [] -> ~ assigned code w.
Proof.
  intros Hrefl Hnil Hin. unfold assigned in Hin.
  apply in_map_iff in Hin. destruct Hin as [l [Hcode Hl]].
  assert (Hf : In l (links_with_code code w)).
  { unfold links_with_code. apply filter_In. split; [exact Hl |].
    rewrite Hcode. apply Hrefl. }
  rewrite Hnil in Hf. exact Hf.
Qed.

Lemma links_with_code_assigned (code : string) (w : World) :
  sql_eq_reflexive_on_text ->
  assigned code w -> links_with_code code w <> [].
Proof.
  intros Hrefl Hin Hnil. exact (links_with_code_nil code w Hrefl Hnil Hin).
Qed.

(** A run that returns a code leaves the tables and the clocks alone; the
    code is the numeral of a candidate for which the lookup found no row. *)
Lemma generateUniqueLinkCode_returned (turns : nat) :
  forall (w w' : World) (code : string),
    unit_draws w ->
    generateUniqueLinkCode turns w = (Ret code, w') ->
    same_tables w w' /\ db_now w' = db_now w /\
    (exists n, 1000 <= n <= 9999 /\ code = num_toString n) /\
    links_with_code code w = [].
Proof.
  induction turns as [| turns IH]; intros w w' code Hu Hrun.
  - discriminate Hrun.
  - rewrite generateUniqueLinkCode_turn in Hrun. cbv zeta in Hrun.
    destruct (pool_ok w (queries w)); [| discriminate Hrun].
    destruct (links_with_code (code_of (random w (draws w))) w) eqn:Hrows.
    + injection Hrun as <- <-.
      split; [repeat split |]. split; [reflexivity |]. split; [| exact Hrows].
      exists (Math_floor (inject_Z 1000 + random w (draws w) * inject_Z 9000)).
      split; [apply floor_of_draw; apply Hu | reflexivity].
    + apply (IH (tick_query (tick_draw w)) w' code Hu) in Hrun.
      destruct Hrun as [Ht [Hc [Hn Hl]]]. repeat split; try apply Ht; assumption.
Qed.

(** When every candidate is assigned, no run returns a code, and a run that
    the pool keeps answering is still looping at any bound. *)
Lemma generateUniqueLinkCode_saturated (turns : nat) :
  forall w : World,
    sql_eq_reflexive_on_text ->
    unit_draws w ->
    (forall n, 1000 <= n <= 9999 -> assigned (num_toString n) w) ->
    (forall code w', generateUniqueLinkCode turns w <> (Ret code, w')) /\
    (pool_answers w -> fst (generateUniqueLinkCode turns w) = Hang).
Proof.
  induction turns as [| turns IH]; intros w Hrefl Hu Hfull.
  - split; [discriminate | reflexivity].
  - rewrite generateUniqueLinkCode_turn. cbv zeta.
    assert (Hrows : links_with_code (code_of (random w (draws w))) w <> []).
    { apply links_with_code_assigned; [exact Hrefl |].
      apply Hfull. apply floor_of_draw. apply Hu. }
    destruct (links_with_code (code_of (random w (draws w))) w) as [| l rows];
      [contradiction |].
    destruct (IH (tick_query (tick_draw w)) Hrefl Hu Hfull) as [IHret IHhang].
    split.
    + intros code w'. destruct (pool_ok w (queries w)); [apply IHret | discriminate].
    + intros Hpool. rewrite Hpool. apply IHhang. exact Hpool.
Qed.

(** [k] draws that hit an assigned candidate followed by one that hits a
    candidate the lookup does not find: [k] turns are not enough, [k + 1]
    are. *)
Lemma generateUniqueLinkCode_after (k : nat) :
  forall (w : World) (n0 n1 : Z),
    sql_eq_reflexive_on_text ->
    pool_answers w ->
    assigned (num_toString n0) w ->
    links_with_code (num_toString n1) w = [] ->
    (forall i, (draws w <= i < draws w + k)%nat -> random w i = draw_for n0) ->
    random w (draws w + k) = draw_for n1 ->
    fst (generateUniqueLinkCode k w) = Hang /\
    fst (generateUniqueLinkCode (S k) w) = Ret (num_toString n1).
Proof.
  induction k as [| k IH]; intros w n0 n1 Hrefl Hpool Hn0 Hn1 Hfirst Hlast.
  - split; [reflexivity |].
    rewrite generateUniqueLinkCode_turn. cbv zeta. rewrite Hpool.
    rewrite Nat.add_0_r in Hlast. unfold code_of. rewrite Hlast, floor_of_draw_for.
    rewrite Hn1. reflexivity.
  - assert (Hstep : forall t, generateUniqueLinkCode (S t) w =
                              generateUniqueLinkCode t (tick_query (tick_draw w))).
    { intros t. rewrite generateUniqueLinkCode_turn. cbv zeta. rewrite Hpool.
      unfold code_of. rewrite (Hfirst (draws w)) by lia. rewrite floor_of_draw_for.
      pose proof (links_with_code_assigned _ _ Hrefl Hn0) as Hrows.
      destruct (links_with_code (num_toString n0) w); [contradiction | reflexivity]. }
    rewrite !Hstep.
    apply (IH (tick_query (tick_draw w)) n0 n1 Hrefl Hpool Hn0 Hn1).
    + intros i Hi. cbn [draws tick_query tick_draw] in Hi. apply Hfirst. lia.
    + cbn [draws tick_query tick_draw random].
      replace (S (draws w) + k)%nat with (draws w + S k)%nat by lia. exact Hlast.
Qed.

(** However a run ends, it has touched neither [links] nor the clocks. *)
Lemma generateUniqueLinkCode_frame (turns : nat) :
  forall (w w' : World) (r : outcome string),
    generateUniqueLinkCode turns w = (r, w') ->
    links w' = links w /\ date_now w' = date_now w /\ db_now w' = db_now w.
Proof.
  induction turns as [| turns IH]; intros w w' r Hrun.
  - injection Hrun as _ <-. repeat split.
  - rewrite generateUniqueLinkCode_turn in Hrun. cbv zeta in Hrun.
    destruct (pool_ok w (queries w)).
    + destruct (links_with_code (code_of (random w (draws w))) w).
      * injection Hrun as _ <-. repeat split.
      * apply IH in Hrun. exact Hrun.
    + injection Hrun as _ <-. repeat split.
Qed.

End Allocator.

(** *** Facts about the samples *)

Lemma sample_sql_eq_reflexive : @sql_eq_reflexive_on_text Sample.platform.
Proof. intros s. cbn. apply String.eqb_refl. Qed.

Lemma draws_then_unit (k : nat) (n0 n1 : Z) (start : nat) (w : World) :
  1000 <= n0 <= 9999 -> 1000 <= n1 <= 9999 ->
  unit_draws (set_random (draws_then k n0 n1 start) w).
Proof.
  intros H0 H1 i. cbn [random set_random]. unfold draws_then.
  destruct (i <? start + k)%nat; apply draw_for_unit; assumption.
Qed.

Lemma sample_w0_unit_draws : unit_draws Sample.w0.
Proof. apply (draws_then_unit 1 1234 4321 0 Sample.w0); lia. Qed.

Lemma sample_w_full_unit_draws : unit_draws Sample.w_full.
Proof. intros k. cbn. split; [apply Qle_refl | reflexivity]. Qed.

Lemma sample_w_full_assigned (n : Z) :
  1000 <= n <= 9999 -> assigned (num_toString n) Sample.w_full.
Proof.
  intros Hn. unfold assigned, Sample.w_full, Sample.world. cbn [links].
  rewrite map_map. cbn [Links.link_code Sample.link].
  apply in_map. apply candidates_range. exact Hn.
Qed.

(** *** The link allocator *)

(** C2. Every code that [generateUniqueLinkCode] returns is a string of four
    decimal digits, the numeral of a value between 1000 and 9999, and when it
    is returned no link of the store that has not expired carries it (the
    lookup is over all links, expired or not). *)
Theorem generateUniqueLinkCode_fresh_four_digits
    {platform : Platform} (turns : nat) (w w' : World) (code : string) :
  sql_eq_reflexive_on_text ->
  unit_draws w ->
  generateUniqueLinkCode turns w = (Ret code, w') ->
  four_digits code = true /\
  (exists n, 1000 <= n <= 9999 /\ code = num_toString n) /\
  (forall l, In l (links w') -> live w' l -> Links.link_code l <> code).
Proof.
  intros Hrefl Hu Hrun.
  destruct (generateUniqueLinkCode_returned turns w w' code Hu Hrun)
    as [Htables [_ [[n [Hn Hcode]] Hnil]]].
  split; [| split].
  - rewrite Hcode. apply four_digits_in_range. exact Hn.
  - exists n. split; assumption.
  - intros l Hl _ Heq.
    apply (links_with_code_nil code w Hrefl Hnil).
    unfold assigned. rewrite <- Heq.
    destruct Htables as [_ [_ [Hlinks _]]]. rewrite <- Hlinks.
    apply in_map. exact Hl.
Qed.

Lemma generateUniqueLinkCode_fresh_four_digits_witness :
  let w' := snd (generateUniqueLinkCode (platform := Sample.platform) 2 Sample.w0) in
  four_digits "4321" = true /\
  (exists n, 1000 <= n <= 9999 /\ "4321" = num_toString n) /\
  (forall l, In l (links w') -> live w' l -> Links.link_code l <> "4321").
Proof.
  exact (generateUniqueLinkCode_fresh_four_digits
           2 Sample.w0
           (snd (generateUniqueLinkCode (platform := Sample.platform) 2 Sample.w0))
           "4321"
           sample_sql_eq_reflexive sample_w0_unit_draws eq_refl).
Defined.

(** C3. The allocation loop has no cap on its attempts.  When all 9000
    candidates are assigned, no run of [generateUniqueLinkCode] returns a
    code, and as long as the pool answers the run is still looping at every
    bound (it reports no error).  When some candidate is assigned and the
    lookup finds none for another, then for every [k] there are draws for
    which [k] probes fail before the next one succeeds. *)
Theorem generateUniqueLinkCode_unbounded :
  (forall (platform : Platform) (w : World) (turns : nat),
     sql_eq_reflexive_on_text ->
     unit_draws w ->
     (forall n, 1000 <= n <= 9999 -> assigned (num_toString n) w) ->
     (forall code w', generateUniqueLinkCode turns w <> (Ret code, w')) /\
     (pool_answers w -> fst (generateUniqueLinkCode turns w) = Hang))
  /\
  (forall (platform : Platform) (w : World) (n0 n1 : Z) (k : nat),
     sql_eq_reflexive_on_text ->
     pool_answers w ->
     1000 <= n0 <= 9999 -> assigned (num_toString n0) w ->
     1000 <= n1 <= 9999 -> links_with_code (num_toString n1) w = [] ->
     exists r : nat -> Q,
       unit_draws (set_random r w) /\
       fst (generateUniqueLinkCode k (set_random r w)) = Hang /\
       fst (generateUniqueLinkCode (S k) (set_random r w)) = Ret (num_toString n1)).
Proof.
  split.
  - intros platform w turns Hrefl Hu Hfull.
    apply generateUniqueLinkCode_saturated; assumption.
  - intros platform w n0 n1 k Hrefl Hpool Hn0 Ha0 Hn1 Hf1.
    exists (draws_then k n0 n1 (draws w)). split.
    + apply draws_then_unit; assumption.
    + apply (generateUniqueLinkCode_after k (set_random _ w) n0 n1);
        try assumption.
      * intros i Hi. cbn [random set_random draws] in *. unfold draws_then.
        destruct (Nat.ltb_spec i (draws w + k)); [reflexivity | lia].
      * cbn [random set_random draws]. unfold draws_then.
        rewrite Nat.ltb_irrefl. reflexivity.
Qed.

Lemma generateUniqueLinkCode_unbounded_witness :
  fst (generateUniqueLinkCode (platform := Sample.platform) 50 Sample.w_full) = Hang /\
  exists r : nat -> Q,
    unit_draws (set_random r Sample.w0) /\
    fst (generateUniqueLinkCode (platform := Sample.platform) 5
           (set_random r Sample.w0)) = Hang /\
    fst (generateUniqueLinkCode (platform := Sample.platform) 6
           (set_random r Sample.w0)) = Ret "4321".
Proof.
  split.
  - apply (proj1 generateUniqueLinkCode_unbounded Sample.platform Sample.w_full 50%nat
             sample_sql_eq_reflexive sample_w_full_unit_draws sample_w_full_assigned).
    intros k. reflexivity.
  - apply (proj2 generateUniqueLinkCode_unbounded Sample.platform Sample.w0
             1234 4321 5%nat sample_sql_eq_reflexive).
    + intros k. reflexivity.
    + lia.
    + cbn. left. reflexivity.
    + lia.
    + reflexivity.
Defined.

(** *** The bearer gate *)

Lemma truthy_JStr (s : string) : truthy (JStr s) = true <-> s <> EmptyString.
Proof.
  cbn [truthy]. rewrite negb_true_iff. apply String.eqb_neq.
Qed.

Lemma authenticateToken_next {platform : Platform} (req req' : Req) :
  authenticateToken req = inr req' ->
  exists claims, req' = set_user claims req.
Proof.
  unfold authenticateToken. intros H.
  destruct (authorization req) as [h |]; [| discriminate].
  destruct (negb (truthy (JStr h))); [discriminate |].
  destruct (index (split " " h) 1) as [token |]; [| discriminate].
  destruct (negb (truthy (JStr token))); [discriminate |].
  destruct (jwt_verify token JWT_SECRET) as [err | claims]; [discriminate |].
  exists claims. injection H as <-. reflexivity.
Qed.

Lemma route_next (mw : Middleware) (rest : list Middleware)
    (handler : Req -> M Response) (req req' : Req) :
  mw req = inr req' -> route (mw :: rest) handler req = route rest handler req'.
Proof. intros H. cbn [route]. rewrite H. reflexivity. Qed.

Lemma route_answered (mw : Middleware) (rest : list Middleware)
    (handler : Req -> M Response) (req : Req) (res : Response) (w : World) :
  mw req = inl res -> route (mw :: rest) handler req w = (Ret res, w).
Proof. intros H. cbn [route]. rewrite H. reflexivity. Qed.

(** C5, as the code has it.  [authenticateToken] answers 401 when the
    [authorization] header is absent or empty ("No token provided") and when
    it has no second segment after a space, or an empty one ("Malformed
    token"); a token that [jwt.verify] rejects, whatever the error (expired,
    invalid signature, not a token), is answered 403 "Invalid token"; a token
    that verifies puts its claims in [req.user] and passes the request on. *)
Theorem authenticateToken_outcomes {platform : Platform} (req : Req) :
  (authorization req = None \/ authorization req = Some EmptyString ->
   authenticateToken req = inl (respond 401 (error_ "No token provided")))
  /\
  (forall h, authorization req = Some h -> h <> EmptyString ->
     index (split " " h) 1 = None \/ index (split " " h) 1 = Some EmptyString ->
     authenticateToken req = inl (respond 401 (error_ "Malformed token")))
  /\
  (forall h token, authorization req = Some h -> h <> EmptyString ->
     index (split " " h) 1 = Some token -> token <> EmptyString ->
     match jwt_verify token JWT_SECRET with
     | inl err =>
         authenticateToken req = inl (respond 403 (error_ "Invalid token"))
     | inr claims =>
         authenticateToken req = inr (set_user claims req) /\
         user (set_user claims req) = Some claims
     end).
Proof.
  unfold authenticateToken. split; [| split].
  - intros [H | H]; rewrite H; reflexivity.
  - intros h Hh Hne Hseg. rewrite Hh.
    apply truthy_JStr in Hne. rewrite Hne. cbn [negb].
    destruct Hseg as [Hseg | Hseg]; rewrite Hseg; reflexivity.
  - intros h token Hh Hne Hseg Htok. rewrite Hh.
    apply truthy_JStr in Hne. rewrite Hne. cbn [negb]. rewrite Hseg.
    apply truthy_JStr in Htok. rewrite Htok. cbn [negb].
    destruct (jwt_verify token JWT_SECRET); [reflexivity | split; reflexivity].
Qed.

Lemma authenticateToken_outcomes_witness :
  authenticateToken (platform := Sample.platform)
    (Sample.request None [] EmptyString None)
  = inl (respond 401 (error_ "No token provided"))
  /\
  authenticateToken (platform := Sample.platform)
    (Sample.request (Some "Bearer") [] EmptyString None)
  = inl (respond 401 (error_ "Malformed token"))
  /\
  authenticateToken (platform := Sample.platform)
    (Sample.request (Some "Bearer forged.jwt") [] EmptyString None)
  = inl (respond 403 (error_ "Invalid token"))
  /\
  authenticateToken (platform := Sample.platform) (Sample.as_alice [])
  = inr (set_user Sample.alice (Sample.as_alice [])).
Proof.
  split; [| split; [| split]].
  - apply (proj1 (authenticateToken_outcomes (platform := Sample.platform)
                    (Sample.request None [] EmptyString None))).
    left. reflexivity.
  - apply (proj1 (proj2 (authenticateToken_outcomes (platform := Sample.platform)
                           (Sample.request (Some "Bearer") [] EmptyString None)))
             "Bearer"); [reflexivity | discriminate | left; reflexivity].
  - apply (proj2 (proj2 (authenticateToken_outcomes (platform := Sample.platform)
                           (Sample.request (Some "Bearer forged.jwt") [] EmptyString None)))
             "Bearer forged.jwt" "forged.jwt");
      [reflexivity | discriminate | reflexivity | discriminate].
  - apply (proj2 (proj2 (authenticateToken_outcomes (platform := Sample.platform)
                           (Sample.as_alice [])))
             "Bearer alice.jwt" "alice.jwt");
      [reflexivity | discriminate | reflexivity | discriminate].
Defined.

(** C5, as the specification has it, fails: the answer to an expired token
    is 403, not the 401 of [Unauthorized]. *)
Lemma authenticateToken_expired_is_not_401 :
  jwt_verify (Platform := Sample.platform) "old.jwt"
    (JWT_SECRET (platform := Sample.platform)) = inl TokenExpiredError
  /\
  exists res,
    authenticateToken (platform := Sample.platform)
      (Sample.request (Some "Bearer old.jwt") [] EmptyString None) = inl res
    /\ ~ Unauthorized res.
Proof.
  split; [reflexivity |].
  exists (respond 403 (error_ "Invalid token")).
  split; [reflexivity | discriminate].
Qed.

(** *** Login *)



(** When [bcrypt.compare] rejects instead of resolving, the [catch] of the
    handler answers 500. *)
Lemma login_compare_rejected {platform : Platform} (req : Req) (w : World)
    (user : Users.row) (others : list Users.row) :
  truthy (field "email" (body req)) && truthy (field "password" (body req)) = true ->
  pool_ok w (queries w) = true ->
  users_with_email (field "email" (body req)) w = user :: others ->
  bcrypt_compare (field "password" (body req)) (Users.password_hash user) = None ->
  POST_login req w = (Ret (respond 500 (error_ "Internal server error")), tick_query w).
Proof.
  intros Hfields Hpool Hrows Hcmp.
  unfold POST_login, route, login. unfold_async. cbv zeta.
  rewrite Hfields. cbn [negb]. rewrite Hpool, Hrows, Hcmp. reflexivity.
Qed.



(** *** Playback *)

Lemma link_content_miss {platform : Platform} (req : Req) (w : World) :
  pool_ok w (queries w) = true ->
  live_links_with_code (params_code req) w = [] ->
  GET_link_content req w
  = (Ret (respond 404 (error_ "Link not found or expired")), tick_query w).
Proof.
  intros Hpool Hrows.
  unfold GET_link_content, route, link_content. unfold_async.
  cbv zeta. rewrite Hpool, Hrows. reflexivity.
Qed.

Lemma link_content_hit {platform : Platform} (req : Req) (w : World)
    (link : Links.row) (others : list Links.row) :
  pool_ok w (queries w) = true ->
  pool_ok w (S (queries w)) = true ->
  live_links_with_code (params_code req) w = link :: others ->
  GET_link_content req w
  = (Ret (respond 200
            (media_ (media_of_group (Links.group_id link) (Links.user_id link) w))),
     tick_query (tick_query w)).
Proof.
  intros Hpool1 Hpool2 Hrows.
  unfold GET_link_content, route, link_content. unfold_async.
  cbv zeta. rewrite Hpool1, Hrows. cbn [pool_ok queries tick_query].
  rewrite Hpool2. reflexivity.
Qed.

(** C7, as the code has it.  When no row of [links] with the code is live,
    be it that no row has the code or that those that have it have expired,
    the answer is the one 404 "Link not found or expired", never the media.
    On a hit the answer is the rows of [media] whose group and user are, for
    the store, those of the first live row with the code, and only those. *)
Theorem link_content_outcomes {platform : Platform} (req : Req) (w : World) :
  pool_ok w (queries w) = true ->
  pool_ok w (S (queries w)) = true ->
  ((forall l, In l (links w) ->
      sql_eq (JStr (Links.link_code l)) (JStr (params_code req)) = true ->
      ~ live w l) ->
   fst (GET_link_content req w)
   = Ret (respond 404 (error_ "Link not found or expired")))
  /\
  (forall link others,
     live_links_with_code (params_code req) w = link :: others ->
     exists rows,
       fst (GET_link_content req w) = Ret (respond 200 (media_ rows)) /\
       In link (links w) /\ live w link /\
       forall m, In m rows <->
                 In m (media w) /\
                 sql_eq (Media.group_id m) (Links.group_id link) = true /\
                 sql_eq (Media.user_id m) (Links.user_id link) = true).
Proof.
  intros Hpool1 Hpool2. split.
  - intros Hnone. rewrite link_content_miss; [reflexivity | exact Hpool1 |].
    unfold live_links_with_code.
    destruct (filter _ (links w)) as [| l rows] eqn:Hf; [reflexivity | exfalso].
    assert (Hin : In l (filter
                          (fun l => sql_eq (JStr (Links.link_code l))
                                      (JStr (params_code req))
                                    && (Links.expires_at l >? db_now w))
                          (links w)))
      by (rewrite Hf; left; reflexivity).
    apply filter_In in Hin. destruct Hin as [Hl Hc].
    apply andb_true_iff in Hc. destruct Hc as [Hcode Hlive].
    apply (Hnone l Hl Hcode). unfold live. lia.
  - intros link others Hrows.
    exists (media_of_group (Links.group_id link) (Links.user_id link) w).
    rewrite (link_content_hit req w link others Hpool1 Hpool2 Hrows).
    assert (Hin : In link (live_links_with_code (params_code req) w))
      by (rewrite Hrows; left; reflexivity).
    unfold live_links_with_code in Hin. apply filter_In in Hin.
    destruct Hin as [Hl Hc]. apply andb_true_iff in Hc.
    split; [reflexivity |]. split; [exact Hl |]. split; [unfold live; lia |].
    intros m. unfold media_of_group. rewrite filter_In, andb_true_iff. reflexivity.
Qed.

Lemma link_content_outcomes_witness :
  fst (GET_link_content (platform := Sample.platform)
         (Sample.request None [] "1234" None) Sample.w0)
  = Ret (respond 404 (error_ "Link not found or expired")) /\
  exists rows,
    fst (GET_link_content (platform := Sample.platform)
           (Sample.request None [] "2222" None) Sample.w0)
    = Ret (respond 200 (media_ rows)) /\
    In (Sample.link "2222" 9000) (links Sample.w0) /\
    live Sample.w0 (Sample.link "2222" 9000) /\
    forall m, In m rows <->
              In m (media Sample.w0) /\
              sql_eq (Platform := Sample.platform) (Media.group_id m) (JNum 3) = true /\
              sql_eq (Platform := Sample.platform) (Media.user_id m) (JNum 7) = true.
Proof.
  split.
  - apply (proj1 (link_content_outcomes (platform := Sample.platform)
                    (Sample.request None [] "1234" None) Sample.w0
                    eq_refl eq_refl)).
    intros l [<- | [<- | []]] Hcode; [| discriminate Hcode].
    unfold live. cbn. lia.
  - apply (proj2 (link_content_outcomes (platform := Sample.platform)
                    (Sample.request None [] "2222" None) Sample.w0
                    eq_refl eq_refl)
             (Sample.link "2222" 9000) []).
    reflexivity.
Defined.

(** C7, as the specification has it, fails: a code that no link has and a
    code whose link has expired get the same response. *)
Lemma link_content_expired_same_as_absent :
  assigned "1234" Sample.w0 /\
  ~ assigned "7777" Sample.w0 /\
  exists res,
    NotFound res /\
    fst (GET_link_content (platform := Sample.platform)
           (Sample.request None [] "1234" None) Sample.w0) = Ret res /\
    fst (GET_link_content (platform := Sample.platform)
           (Sample.request None [] "7777" None) Sample.w0) = Ret res.
Proof.
  split; [left; reflexivity |].
  split; [intros [H | [H | []]]; discriminate H |].
  exists (respond 404 (error_ "Link not found or expired")).
  repeat split.
Qed.

(** *** The administrator gate *)

Lemma verifySuperAdmin_rejects (req : Req) (claims : Claims) :
  user req = Some claims ->
  email claims <> JStr "admin@gnetworkservices.in" ->
  verifySuperAdmin req = inl (respond 403 (error_ "Forbidden: Super admin only")).
Proof.
  intros Hu Hne. unfold verifySuperAdmin. rewrite Hu.
  destruct (email claims) as [| | b | n | s]; try reflexivity.
  cbn [strict_eq]. destruct (String.eqb_spec s "admin@gnetworkservices.in") as [-> | _];
    [contradiction | reflexivity].
Qed.

(** The two routes that register [verifySuperAdmin] answer a token without
    the administrator's email with 403, whatever the store holds. *)
Lemma admin_payment_settings_forbidden {platform : Platform}
    (req : Req) (claims : Claims) (w : World) :
  authenticateToken req = inr (set_user claims req) ->
  email claims <> JStr "admin@gnetworkservices.in" ->
  exists res,
    Forbidden res /\
    GET_admin_payment_settings req w = (Ret res, w) /\
    POST_admin_payment_settings req w = (Ret res, w).
Proof.
  intros Hauth Hne. exists (respond 403 (error_ "Forbidden: Super admin only")).
  unfold GET_admin_payment_settings, POST_admin_payment_settings.
  rewrite !(route_next _ _ _ _ _ Hauth).
  split; [reflexivity |].
  split; apply route_answered;
    apply (verifySuperAdmin_rejects _ claims); (reflexivity || exact Hne).
Qed.

(** C8, where the code departs from it.  [POST /api/payment/offline]
    registers [authenticateToken] alone: a token without the administrator's
    email is answered 200 with the placeholder message, not 403. *)
Theorem payment_offline_not_gated {platform : Platform}
    (req : Req) (claims : Claims) (w : World) :
  authenticateToken req = inr (set_user claims req) ->
  email claims <> JStr "admin@gnetworkservices.in" ->
  POST_payment_offline req w
  = (Ret (respond 200 (message_ "Offline payment recorded (placeholder)")), w).
Proof.
  intros Hauth _. unfold POST_payment_offline.
  rewrite (route_next _ _ _ _ _ Hauth). reflexivity.
Qed.

Lemma payment_offline_not_gated_witness :
  POST_payment_offline (platform := Sample.platform) (Sample.as_alice []) Sample.w0
  = (Ret (respond 200 (message_ "Offline payment recorded (placeholder)")), Sample.w0).
Proof.
  apply (payment_offline_not_gated (platform := Sample.platform)
           (Sample.as_alice []) Sample.alice Sample.w0);
    [reflexivity | discriminate].
Defined.

(** *** Media upload *)

(** C9. An authenticated upload without files is answered 400 "No files
    uploaded" and changes nothing; one with N >= 1 files, when the pool takes
    the insert, appends N rows to [media], all of the caller, and emits one
    [mediaUpdated] event, to the room of the caller. *)
Theorem media_upload_rows_and_event {platform : Platform}
    (req : Req) (claims : Claims) (w : World) :
  authenticateToken req = inr (set_user claims req) ->
  (files req = None \/ files req = Some [] ->
   POST_media_upload req w = (Ret (respond 400 (error_ "No files uploaded")), w) /\
   ValidationError (respond 400 (error_ "No files uploaded")))
  /\
  (forall fs, files req = Some fs -> fs <> [] ->
     pool_ok w (queries w) = true ->
     exists rows w',
       POST_media_upload req w
       = (Ret (respond 200 (message_ "Files uploaded successfully")), w') /\
       media w' = (media w ++ rows)%list /\
       List.length rows = List.length fs /\
       Forall (fun m => Media.user_id m = userId claims) rows /\
       emitted w'
       = (emitted w
          ++ [ {| room := "user_" ++ toString (userId claims);
                  event := "mediaUpdated";
                  groupId := or_else (field "groupId" (body req)) JNull |} ])%list).
Proof.
  intros Hauth. unfold POST_media_upload.
  rewrite (route_next _ _ _ _ _ Hauth). cbn [route].
  unfold media_upload. unfold_async.
  cbn [user set_user files body]. split.
  - intros [H | H]; rewrite H; split; reflexivity.
  - intros fs Hfs Hne Hpool. rewrite Hfs.
    destruct fs as [| f fs]; [contradiction |].
    cbv zeta. rewrite Hpool.
    eexists. eexists. split; [reflexivity |].
    split; [reflexivity |]. split; [apply length_map |]. split; [| reflexivity].
    apply Forall_forall. intros m Hm. apply in_map_iff in Hm.
    destruct Hm as [file [<- _]]. reflexivity.
Qed.

Lemma media_upload_rows_and_event_witness :
  let png := {| mimetype := "image/png"; filename := "17-a.png" |} in
  let mp4 := {| mimetype := "video/mp4"; filename := "17-b.mp4" |} in
  let req := Sample.request (Some "Bearer alice.jwt") [("groupId", JStr "3")]
               EmptyString (Some [png; mp4]) in
  exists rows w',
    POST_media_upload (platform := Sample.platform) req Sample.w_empty
    = (Ret (respond 200 (message_ "Files uploaded successfully")), w') /\
    media w' = (media Sample.w_empty ++ rows)%list /\
    List.length rows = 2%nat /\
    Forall (fun m => Media.user_id m = JNum 7) rows /\
    emitted w'
    = (emitted Sample.w_empty
       ++ [ {| room := "user_7"; event := "mediaUpdated"; groupId := JStr "3" |} ])%list.
Proof.
  intros png mp4 req.
  apply (proj2 (media_upload_rows_and_event (platform := Sample.platform)
                  req Sample.alice Sample.w_empty eq_refl)
           [png; mp4]);
    [reflexivity | discriminate | reflexivity].
Defined.

(** *** Link generation *)


(** A run that does create a row. *)
Example link_generate_creates_a_row :
  POST_link_generate (platform := Sample.platform) 2
    (Sample.as_alice [("groupId", JNum 3)]) Sample.w0
  = (Ret (respond 200 (link_ "http://localhost:4000/4321")),
     set_links
       (fun rows =>
          (rows ++ [ {| Links.user_id := JNum 7; Links.link_code := "4321";
                        Links.group_id := JNum 3; Links.created_at := 5000;
                        Links.expires_at := 5000 + 2592000000 |} ])%list)
       (tick_query (tick_query (tick_draw (tick_query (tick_draw Sample.w0)))))).
Proof. reflexivity. Qed.

(** *** Payment verification *)

(** The handler of [POST /api/payment/verify] never changes the world. *)
Lemma payment_verify_pure {platform : Platform} (req : Req) (w : World) :
  snd (payment_verify req w) = w.
Proof.
  unfold payment_verify. unfold_async.
  destruct (razorpayInstance w) as [rz |]; [| reflexivity].
  cbv zeta.
  destruct (negb _); [reflexivity |].
  destruct (negb _); reflexivity.
Qed.

Lemma POST_payment_verify_pure {platform : Platform} (req : Req) (w : World) :
  snd (POST_payment_verify req w) = w.
Proof.
  unfold POST_payment_verify. cbn [route].
  destruct (authenticateToken req); [reflexivity | apply payment_verify_pure].
Qed.

(** C1, where the code departs from it.  A call whose signature is the HMAC
    of [orderId|paymentId] under the stored secret is answered "Payment
    verified successfully" and leaves the world as it was: no row of
    [user_packages] is activated and no row is added to [payments]. *)
Theorem payment_verify_match_updates_nothing {platform : Platform}
    (req : Req) (claims : Claims) (w : World) (rz : Razorpay) :
  let razorpay_order_id := field "razorpay_order_id" (body req) in
  let razorpay_payment_id := field "razorpay_payment_id" (body req) in
  let razorpay_signature := field "razorpay_signature" (body req) in
  authenticateToken req = inr (set_user claims req) ->
  razorpayInstance w = Some rz ->
  truthy razorpay_order_id = true ->
  truthy razorpay_payment_id = true ->
  truthy razorpay_signature = true ->
  razorpay_signature
  = JStr (createHmac_sha256_hex (key_secret rz)
            (toString razorpay_order_id ++ "|" ++ toString razorpay_payment_id)) ->
  POST_payment_verify req w
  = (Ret (respond 200 (message_ "Payment verified successfully")), w) /\
  user_packages (snd (POST_payment_verify req w)) = user_packages w /\
  payments (snd (POST_payment_verify req w)) = payments w.
Proof.
  cbv zeta. intros Hauth Hrz Ho Hp Hs Hsig.
  assert (Hrun : POST_payment_verify req w
                 = (Ret (respond 200 (message_ "Payment verified successfully")), w)).
  { unfold POST_payment_verify. rewrite (route_next _ _ _ _ _ Hauth). cbn [route].
    unfold payment_verify. unfold_async.
    cbn [body set_user]. rewrite Hrz. cbv zeta. rewrite Ho, Hp, Hs. cbn [andb negb].
    rewrite Hsig. cbn [strict_eq]. rewrite String.eqb_refl. reflexivity. }
  rewrite Hrun. repeat split.
Qed.

Lemma payment_verify_match_updates_nothing_witness :
  let req := Sample.as_alice
               [("razorpay_order_id", JStr "order_1");
                ("razorpay_payment_id", JStr "pay_1");
                ("razorpay_signature", JStr "hmac[s3cret][order_1|pay_1]")] in
  POST_payment_verify (platform := Sample.platform) req Sample.w0
  = (Ret (respond 200 (message_ "Payment verified successfully")), Sample.w0) /\
  user_packages (snd (POST_payment_verify (platform := Sample.platform) req Sample.w0))
  = user_packages Sample.w0 /\
  payments (snd (POST_payment_verify (platform := Sample.platform) req Sample.w0))
  = payments Sample.w0.
Proof.
  intros req.
  apply (payment_verify_match_updates_nothing (platform := Sample.platform)
           req Sample.alice Sample.w0
           {| key_id := "rzp_test"; key_secret := "s3cret" |});
    reflexivity.
Defined.

(** C4, as the code has it.  A call whose signature is not the HMAC of
    [orderId|paymentId] under the stored secret changes nothing and is never
    answered 200; when the caller is authenticated, the gateway is configured
    and the three fields are present, the answer is 400 "Invalid payment
    signature". *)
Theorem payment_verify_mismatch {platform : Platform} (req : Req) (w : World) :
  let razorpay_order_id := field "razorpay_order_id" (body req) in
  let razorpay_payment_id := field "razorpay_payment_id" (body req) in
  let razorpay_signature := field "razorpay_signature" (body req) in
  (forall rz, razorpayInstance w = Some rz ->
     razorpay_signature
     <> JStr (createHmac_sha256_hex (key_secret rz)
                (toString razorpay_order_id ++ "|" ++ toString razorpay_payment_id))) ->
  (exists res, POST_payment_verify req w = (Ret res, w) /\ status res <> 200) /\
  (forall claims rz,
     authenticateToken req = inr (set_user claims req) ->
     razorpayInstance w = Some rz ->
     truthy razorpay_order_id = true ->
     truthy razorpay_payment_id = true ->
     truthy razorpay_signature = true ->
     POST_payment_verify req w
     = (Ret (respond 400 (error_ "Invalid payment signature")), w) /\
     InvalidSignature (respond 400 (error_ "Invalid payment signature"))).
Proof.
  cbv zeta. intros Hsig.
  assert (Hneq : forall rz, razorpayInstance w = Some rz ->
            strict_eq
              (JStr (createHmac_sha256_hex (key_secret rz)
                       (toString (field "razorpay_order_id" (body req)) ++ "|"
                        ++ toString (field "razorpay_payment_id" (body req)))))
              (field "razorpay_signature" (body req)) = false).
  { intros rz Hrz. specialize (Hsig rz Hrz).
    destruct (field "razorpay_signature" (body req)) as [| | b | n | s];
      try reflexivity.
    cbn [strict_eq]. apply String.eqb_neq. intros E. apply Hsig. rewrite E.
    reflexivity. }
  split.
  - unfold POST_payment_verify. cbn [route].
    destruct (authenticateToken req) as [res | req'] eqn:Hauth.
    + exists res. split; [reflexivity |].
      unfold authenticateToken in Hauth.
      destruct (authorization req) as [h |];
        [| injection Hauth as <-; discriminate].
      destruct (negb (truthy (JStr h))); [injection Hauth as <-; discriminate |].
      destruct (index (split " " h) 1) as [token |];
        [| injection Hauth as <-; discriminate].
      destruct (negb (truthy (JStr token))); [injection Hauth as <-; discriminate |].
      destruct (jwt_verify token JWT_SECRET); [| discriminate].
      injection Hauth as <-. discriminate.
    + destruct (authenticateToken_next req req' Hauth) as [claims ->].
      unfold payment_verify. unfold_async.
      cbn [body set_user].
      destruct (razorpayInstance w) as [rz |] eqn:Hrz;
        [| eexists; split; [reflexivity | discriminate]].
      cbv zeta. destruct (negb (_ && _ && _));
        [eexists; split; [reflexivity | discriminate] |].
      rewrite (Hneq rz eq_refl). cbn [negb].
      eexists; split; [reflexivity | discriminate].
  - intros claims rz Hauth Hrz Ho Hp Hs. split; [| reflexivity].
    unfold POST_payment_verify. rewrite (route_next _ _ _ _ _ Hauth). cbn [route].
    unfold payment_verify. unfold_async.
    cbn [body set_user]. rewrite Hrz. cbv zeta. rewrite Ho, Hp, Hs. cbn [andb negb].
    rewrite (Hneq rz Hrz). reflexivity.
Qed.

Lemma payment_verify_mismatch_witness :
  let req := Sample.as_alice
               [("razorpay_order_id", JStr "order_1");
                ("razorpay_payment_id", JStr "pay_1");
                ("razorpay_signature", JStr "deadbeef")] in
  POST_payment_verify (platform := Sample.platform) req Sample.w0
  = (Ret (respond 400 (error_ "Invalid payment signature")), Sample.w0).
Proof.
  intros req.
  assert (Hsig : forall rz, razorpayInstance Sample.w0 = Some rz ->
            field "razorpay_signature" (body req)
            <> JStr (createHmac_sha256_hex (Platform := Sample.platform)
                       (key_secret rz)
                       (toString (field "razorpay_order_id" (body req)) ++ "|"
                        ++ toString (field "razorpay_payment_id" (body req))))).
  { intros rz Hrz. injection Hrz as <-. discriminate. }
  apply (proj2 (payment_verify_mismatch (platform := Sample.platform)
                  req Sample.w0 Hsig)
           Sample.alice {| key_id := "rzp_test"; key_secret := "s3cret" |});
    reflexivity.
Defined.

(** C4, as the specification has it, fails: with the order id missing, a call
    with a wrong signature is answered "Payment details are required". *)
Lemma verify_without_order_id_is_not_invalid_signature :
  let req := Sample.as_alice
               [("razorpay_order_id", JStr EmptyString);
                ("razorpay_payment_id", JStr "pay_1");
                ("razorpay_signature", JStr "deadbeef")] in
  JStr "deadbeef"
  <> JStr (createHmac_sha256_hex (Platform := Sample.platform) "s3cret"
             (toString (JStr EmptyString) ++ "|" ++ toString (JStr "pay_1")))
  /\
  exists res,
    fst (POST_payment_verify (platform := Sample.platform) req Sample.w0) = Ret res
    /\ ~ InvalidSignature res.
Proof.
  intros req. split; [discriminate |].
  exists (respond 400 (error_ "Payment details are required")).
  split; [reflexivity | discriminate].
Qed.

(** *** Registration *)

Section RegistrationFacts.

Context {platform : Platform} {accounts : Accounts}.

(** X1. A registration that lacks a name, an email or a password is answered
    400 before any query: nothing in the world changes, not even the count
    of queries. *)
Theorem register_requires_all_fields (req : Req) (w : World) :
  truthy (field "name" (body req)) && truthy (field "email" (body req))
  && truthy (field "password" (body req)) = false ->
  POST_register req w
  = (Ret (register_respond 400
            (register_error_ "Name, email and password are required")), w).
Proof.
  intros Hfields. unfold POST_register, register. unfold_async. cbv zeta.
  rewrite Hfields. reflexivity.
Qed.

Lemma register_taken (req : Req) (w : World) :
  truthy (field "name" (body req)) && truthy (field "email" (body req))
  && truthy (field "password" (body req)) = true ->
  pool_ok w (queries w) = true ->
  users_with_email (field "email" (body req)) w <> [] ->
  POST_register req w
  = (Ret (register_respond 409 (register_error_ "Email already registered")),
     tick_query w).
Proof.
  intros Hfields Hpool Hrows. unfold POST_register, register. unfold_async.
  cbv zeta. rewrite Hfields. cbn [negb]. rewrite Hpool.
  destruct (users_with_email (field "email" (body req)) w);
    [contradiction | reflexivity].
Qed.

(** X2. A registration for an email that the lookup finds is answered 409
    "Email already registered"; no password is hashed and no table changes. *)
Theorem register_conflict (req : Req) (w : World) :
  truthy (field "name" (body req)) && truthy (field "email" (body req))
  && truthy (field "password" (body req)) = true ->
  pool_ok w (queries w) = true ->
  users_with_email (field "email" (body req)) w <> [] ->
  exists res,
    fst (POST_register req w) = Ret res /\ Conflict res /\
    same_tables w (snd (POST_register req w)).
Proof.
  intros Hfields Hpool Hrows.
  rewrite (register_taken req w Hfields Hpool Hrows).
  eexists. split; [reflexivity |]. split; [reflexivity | repeat split].
Qed.

Lemma register_inserts (req : Req) (w : World) (hash : string) :
  truthy (field "name" (body req)) && truthy (field "email" (body req))
  && truthy (field "password" (body req)) = true ->
  pool_ok w (queries w) = true ->
  pool_ok w (S (queries w)) = true ->
  users_with_email (field "email" (body req)) w = [] ->
  bcrypt_hash (field "password" (body req)) = Some hash ->
  POST_register req w
  = (Ret (register_respond 201
            (registered_ "User registered successfully"
               (users_insertId (tick_query w)))),
     set_users
       (fun rows =>
          (rows ++ [ {| Users.id := users_insertId (tick_query w);
                        Users.email := sql_text (field "email" (body req));
                        Users.password_hash := hash |} ])%list)
       (tick_query (tick_query w))).
Proof.
  intros Hfields Hpool1 Hpool2 Hrows Hhash.
  unfold POST_register, register, insert_user, await_bcrypt_hash. unfold_async.
  cbv zeta. rewrite Hfields. cbn [negb]. rewrite Hpool1, Hrows. cbn [List.length Nat.ltb Nat.leb].
  rewrite Hhash. cbn [pool_ok queries tick_query]. rewrite Hpool2. reflexivity.
Qed.

(** X3. A registration with the three fields and the email given as a
    string, for an email that the lookup does not find, appends one row to
    [users], with the email, the bcrypt hash of the password (never the
    password) and the id the store gives, and answers 201 with that id; no
    other table changes. *)
Theorem register_creates_user (req : Req) (w : World) (e hash : string) :
  field "email" (body req) = JStr e ->
  truthy (field "name" (body req)) && truthy (field "email" (body req))
  && truthy (field "password" (body req)) = true ->
  pool_ok w (queries w) = true ->
  pool_ok w (S (queries w)) = true ->
  users_with_email (field "email" (body req)) w = [] ->
  bcrypt_hash (field "password" (body req)) = Some hash ->
  exists id w',
    POST_register req w
    = (Ret (register_respond 201 (registered_ "User registered successfully" id)),
       w') /\
    users w' = (users w ++ [ {| Users.id := id; Users.email := e;
                               Users.password_hash := hash |} ])%list /\
    media w' = media w /\ links w' = links w /\
    payment_settings w' = payment_settings w /\
    user_packages w' = user_packages w /\ payments w' = payments w.
Proof.
  intros He Hfields Hpool1 Hpool2 Hrows Hhash.
  rewrite (register_inserts req w hash Hfields Hpool1 Hpool2 Hrows Hhash).
  rewrite He. eexists. eexists. split; [reflexivity | repeat split].
Qed.

(** X4. Once a registration for an email given as a string has succeeded, a
    second one for the same email is answered 409 and adds no row. *)
Theorem register_twice_conflicts (req1 req2 : Req) (w : World)
    (e hash : string) :
  sql_eq_reflexive_on_text ->
  field "email" (body req1) = JStr e ->
  field "email" (body req2) = JStr e ->
  truthy (field "name" (body req1)) && truthy (field "email" (body req1))
  && truthy (field "password" (body req1)) = true ->
  truthy (field "name" (body req2)) && truthy (field "email" (body req2))
  && truthy (field "password" (body req2)) = true ->
  pool_ok w (queries w) = true ->
  pool_ok w (S (queries w)) = true ->
  pool_ok w (S (S (queries w))) = true ->
  users_with_email (field "email" (body req1)) w = [] ->
  bcrypt_hash (field "password" (body req1)) = Some hash ->
  let w1 := snd (POST_register req1 w) in
  exists res,
    fst (POST_register req2 w1) = Ret res /\ Conflict res /\
    users (snd (POST_register req2 w1)) = users w1.
Proof.
  intros Hrefl He1 He2 Hf1 Hf2 Hp0 Hp1 Hp2 Hnone Hhash. cbv zeta.
  rewrite (register_inserts req1 w hash Hf1 Hp0 Hp1 Hnone Hhash). cbn [snd].
  rewrite register_taken.
  - eexists. split; [reflexivity |]. split; reflexivity.
  - exact Hf2.
  - exact Hp2.
  - rewrite He1, He2. unfold users_with_email. cbn [users set_users tick_query sql_text toString].
    rewrite filter_app. cbn [filter Users.email]. rewrite Hrefl.
    intros Hnil. apply app_eq_nil in Hnil. destruct Hnil as [_ Hnil]. discriminate Hnil.
Qed.

Lemma login_success (req : Req) (w : World)
    (user : Users.row) (others : list Users.row) :
  truthy (field "email" (body req)) && truthy (field "password" (body req)) = true ->
  pool_ok w (queries w) = true ->
  users_with_email (field "email" (body req)) w = user :: others ->
  bcrypt_compare (field "password" (body req)) (Users.password_hash user) = Some true ->
  POST_login req w
  = (Ret (respond 200
            (token_ (jwt_sign {| userId := Users.id user;
                                 email := field "email" (body req) |} JWT_SECRET))),
     tick_query w).
Proof.
  intros Hfields Hpool Hrows Hcmp.
  unfold POST_login, route, login. unfold_async. cbv zeta.
  rewrite Hfields. cbn [negb]. rewrite Hpool, Hrows, Hcmp. reflexivity.
Qed.

(** X5. After a successful registration with an email and a password given
    as strings, a login with the same email and password is answered 200
    with a token signed for the id that the registration returned, provided
    [bcrypt.compare] accepts a password against its own hash. *)
Theorem register_then_login (req1 req2 : Req) (w : World)
    (e p hash : string) :
  sql_eq_reflexive_on_text ->
  field "email" (body req1) = JStr e -> field "password" (body req1) = JStr p ->
  field "email" (body req2) = JStr e -> field "password" (body req2) = JStr p ->
  truthy (field "name" (body req1)) = true -> e <> EmptyString -> p <> EmptyString ->
  pool_ok w (queries w) = true ->
  pool_ok w (S (queries w)) = true ->
  pool_ok w (S (S (queries w))) = true ->
  users_with_email (JStr e) w = [] ->
  bcrypt_hash (JStr p) = Some hash ->
  bcrypt_compare (JStr p) hash = Some true ->
  exists id,
    fst (POST_register req1 w)
    = Ret (register_respond 201 (registered_ "User registered successfully" id)) /\
    fst (POST_login req2 (snd (POST_register req1 w)))
    = Ret (respond 200
             (token_ (jwt_sign {| userId := id; email := JStr e |} JWT_SECRET))).
Proof.
  intros Hrefl He1 Hp1 He2 Hp2 Hname Hene Hpne Hq0 Hq1 Hq2 Hnone Hhash Hcmp.
  apply truthy_JStr in Hene. apply truthy_JStr in Hpne.
  assert (Hf1 : truthy (field "name" (body req1)) && truthy (field "email" (body req1))
                && truthy (field "password" (body req1)) = true)
    by (rewrite Hname, He1, Hp1, Hene, Hpne; reflexivity).
  rewrite <- He1 in Hnone. rewrite <- Hp1 in Hhash.
  rewrite (register_inserts req1 w hash Hf1 Hq0 Hq1 Hnone Hhash). cbn [fst snd].
  eexists. split; [reflexivity |].
  rewrite (login_success req2 _
             {| Users.id := users_insertId (tick_query w);
                Users.email := sql_text (field "email" (body req1));
                Users.password_hash := hash |} []).
  - cbn [fst Users.id]. rewrite He2. reflexivity.
  - rewrite He2, Hp2, Hene, Hpne. reflexivity.
  - exact Hq2.
  - rewrite He1, He2 in *. unfold users_with_email in *.
    cbn [users set_users tick_query sql_text toString].
    rewrite filter_app, Hnone. cbn [filter Users.email app]. rewrite Hrefl. reflexivity.
  - cbn [Users.password_hash]. rewrite Hp2. exact Hcmp.
Qed.

End RegistrationFacts.

Lemma register_requires_all_fields_witness :
  let req := Sample.request None
               [("email", JStr "bob@example.com"); ("password", JStr "pw")]
               EmptyString None in
  POST_register (platform := Sample.platform) (accounts := SampleAccounts.accounts)
    req Sample.w0
  = (Ret (register_respond 400
            (register_error_ "Name, email and password are required")), Sample.w0).
Proof.
  intros req.
  apply (register_requires_all_fields (platform := Sample.platform)
           (accounts := SampleAccounts.accounts) req Sample.w0).
  reflexivity.
Defined.

Lemma register_conflict_witness :
  let req := SampleAccounts.sign_up "alice@example.com" "other" in
  exists res,
    fst (POST_register (platform := Sample.platform)
           (accounts := SampleAccounts.accounts) req Sample.w0) = Ret res /\
    Conflict res /\
    same_tables Sample.w0
      (snd (POST_register (platform := Sample.platform)
              (accounts := SampleAccounts.accounts) req Sample.w0)).
Proof.
  intros req.
  apply (register_conflict (platform := Sample.platform)
           (accounts := SampleAccounts.accounts) req Sample.w0);
    [reflexivity | reflexivity | discriminate].
Defined.

Lemma register_creates_user_witness :
  let req := SampleAccounts.sign_up "bob@example.com" "pw" in
  exists id w',
    POST_register (platform := Sample.platform)
      (accounts := SampleAccounts.accounts) req Sample.w0
    = (Ret (register_respond 201 (registered_ "User registered successfully" id)),
       w') /\
    users w' = (users Sample.w0
                ++ [ {| Users.id := id; Users.email := "bob@example.com";
                        Users.password_hash := "bcrypt:pw" |} ])%list /\
    media w' = media Sample.w0 /\ links w' = links Sample.w0 /\
    payment_settings w' = payment_settings Sample.w0 /\
    user_packages w' = user_packages Sample.w0 /\ payments w' = payments Sample.w0.
Proof.
  intros req.
  apply (register_creates_user (platform := Sample.platform)
           (accounts := SampleAccounts.accounts) req Sample.w0
           "bob@example.com" "bcrypt:pw");
    reflexivity.
Defined.

Lemma register_twice_conflicts_witness :
  let req := SampleAccounts.sign_up "bob@example.com" "pw" in
  let again := SampleAccounts.sign_up "bob@example.com" "pw2" in
  let w1 := snd (POST_register (platform := Sample.platform)
                   (accounts := SampleAccounts.accounts) req Sample.w0) in
  exists res,
    fst (POST_register (platform := Sample.platform)
           (accounts := SampleAccounts.accounts) again w1) = Ret res /\
    Conflict res /\
    users (snd (POST_register (platform := Sample.platform)
                  (accounts := SampleAccounts.accounts) again w1)) = users w1.
Proof.
  intros req again.
  apply (register_twice_conflicts (platform := Sample.platform)
           (accounts := SampleAccounts.accounts) req again Sample.w0
           "bob@example.com" "bcrypt:pw" sample_sql_eq_reflexive);
    reflexivity.
Defined.

Lemma register_then_login_witness :
  let req := SampleAccounts.sign_up "bob@example.com" "pw" in
  let login := SampleAccounts.sign_in "bob@example.com" "pw" in
  exists id,
    fst (POST_register (platform := Sample.platform)
           (accounts := SampleAccounts.accounts) req Sample.w0)
    = Ret (register_respond 201 (registered_ "User registered successfully" id)) /\
    fst (POST_login (platform := Sample.platform) login
           (snd (POST_register (platform := Sample.platform)
                   (accounts := SampleAccounts.accounts) req Sample.w0)))
    = Ret (respond 200
             (token_ (jwt_sign (Platform := Sample.platform)
                        {| userId := id; email := JStr "bob@example.com" |}
                        (JWT_SECRET (platform := Sample.platform))))).
Proof.
  intros req login.
  apply (register_then_login (platform := Sample.platform)
           (accounts := SampleAccounts.accounts) req login Sample.w0
           "bob@example.com" "pw" "bcrypt:pw" sample_sql_eq_reflexive);
    (reflexivity || discriminate).
Defined.

(** *** From login to the bearer gate *)

Lemma split_without_separator (c : ascii) (s : string) :
  occurs c s = false -> split c s = [s].
Proof.
  induction s as [| a s IH]; intros H; [reflexivity |].
  cbn [occurs] in H. apply orb_false_iff in H. destruct H as [Ha Hs].
  cbn [split]. rewrite Ha, (IH Hs). reflexivity.
Qed.

Lemma split_bearer_header (token : string) :
  occurs " " token = false ->
  index (split " " ("Bearer " ++ token)) 1 = Some token.
Proof.
  intros H. cbn. rewrite (split_without_separator " " token H). reflexivity.
Qed.

(** X6. The token that a successful login returns, sent back as
    [Bearer <token>], passes [authenticateToken] with the id of the user's
    row and the email of the login in [req.user], provided that
    [jwt.verify] decodes what [jwt.sign] signed and that the token is not
    empty and has no space. *)
Theorem login_token_authenticates {platform : Platform}
    (req : Req) (w : World) (user : Users.row) (others : list Users.row) :
  let claims := {| userId := Users.id user; email := field "email" (body req) |} in
  let token := jwt_sign claims JWT_SECRET in
  truthy (field "email" (body req)) && truthy (field "password" (body req)) = true ->
  pool_ok w (queries w) = true ->
  users_with_email (field "email" (body req)) w = user :: others ->
  bcrypt_compare (field "password" (body req)) (Users.password_hash user) = Some true ->
  jwt_verify token JWT_SECRET = inr claims ->
  token <> EmptyString -> occurs " " token = false ->
  fst (POST_login req w) = Ret (respond 200 (token_ token)) /\
  forall next : Req,
    authorization next = Some ("Bearer " ++ token) ->
    authenticateToken next = inr (set_user claims next).
Proof.
  cbv zeta. intros Hfields Hpool Hrows Hcmp Hverify Hne Hsp.
  rewrite (login_success req w user others Hfields Hpool Hrows Hcmp).
  split; [reflexivity |].
  intros next Hauth. unfold authenticateToken. rewrite Hauth.
  assert (Hheader : forall t, truthy (JStr ("Bearer " ++ t)) = true)
    by (intros t; apply truthy_JStr; discriminate).
  rewrite Hheader. cbn [negb].
  rewrite (split_bearer_header _ Hsp).
  apply truthy_JStr in Hne. rewrite Hne. cbn [negb]. rewrite Hverify. reflexivity.
Qed.

Lemma login_token_authenticates_witness :
  let req := SampleAccounts.sign_in "alice@example.com" "pw123" in
  fst (POST_login (platform := SampleAccounts.signing) req Sample.w0)
  = Ret (respond 200 (token_ "alice.jwt")) /\
  forall next : Req,
    authorization next = Some "Bearer alice.jwt" ->
    authenticateToken (platform := SampleAccounts.signing) next
    = inr (set_user Sample.alice next).
Proof.
  intros req.
  apply (login_token_authenticates (platform := SampleAccounts.signing)
           req Sample.w0
           {| Users.id := JNum 7; Users.email := "alice@example.com";
              Users.password_hash := "bcrypt:pw123" |} []);
    (reflexivity || discriminate).
Defined.

Lemma authenticateToken_answer_status {platform : Platform} (req : Req) (res : Response) :
  authenticateToken req = inl res -> Unauthorized res \/ Forbidden res.
Proof.
  unfold authenticateToken, Unauthorized, Forbidden. intros H.
  destruct (authorization req) as [h |]; [| injection H as <-; left; reflexivity].
  destruct (negb (truthy (JStr h))); [injection H as <-; left; reflexivity |].
  destruct (index (split " " h) 1) as [token |];
    [| injection H as <-; left; reflexivity].
  destruct (negb (truthy (JStr token))); [injection H as <-; left; reflexivity |].
  destruct (jwt_verify token JWT_SECRET); [| discriminate].
  injection H as <-. right. reflexivity.
Qed.



(** *** Generated links *)

Section GeneratedLinks.

Context {platform : Platform}.

Lemma generateUniqueLinkCode_unassigned (turns : nat) :
  forall (w w' : World) (code : string),
    generateUniqueLinkCode turns w = (Ret code, w') ->
    links_with_code code w = [].
Proof.
  induction turns as [| turns IH]; intros w w' code Hrun; [discriminate Hrun |].
  rewrite generateUniqueLinkCode_turn in Hrun. cbv zeta in Hrun.
  destruct (pool_ok w (queries w)); [| discriminate Hrun].
  destruct (links_with_code (code_of (random w (draws w))) w) eqn:Hrows.
  - injection Hrun as <- _. exact Hrows.
  - apply IH in Hrun. exact Hrun.
Qed.

(** What a run of the handler does to [links], after the bearer gate. *)
Lemma link_generate_run (turns : nat) (req : Req) (claims : Claims) (w : World) :
  user req = Some claims ->
  let groupId := field "groupId" (body req) in
  (links (snd (link_generate turns req w)) = links w /\
   forall res, fst (link_generate turns req w) = Ret res -> status res <> 200)
  \/
  (exists code w1,
     truthy groupId = true /\
     generateUniqueLinkCode turns w = (Ret code, w1) /\
     link_generate turns req w
     = (Ret (respond 200 (link_ (DOMAIN ++ "/" ++ code))),
        insert_link (userId claims) code groupId
          (date_now w + 30 * 24 * 60 * 60 * 1000) (tick_query w1))).
Proof.
  intros Huser. cbv zeta.
  unfold link_generate. unfold_async. rewrite Huser. cbv zeta.
  destruct (truthy (field "groupId" (body req))) eqn:Hgroup; cbn [negb].
  2:{ left. split; [reflexivity |]. intros res [= <-]. discriminate. }
  destruct (generateUniqueLinkCode turns w) as [[code | |] w1] eqn:Hrun.
  - destruct (generateUniqueLinkCode_frame turns w w1 (Ret code) Hrun)
      as [Hlinks [Hnow Hdb]].
    destruct (pool_ok w1 (queries w1)) eqn:Hpool.
    + right. exists code, w1. rewrite Hnow. repeat split.
    + left. cbn [fst snd links tick_query]. split; [exact Hlinks |].
      intros res [= <-]. discriminate.
  - left. cbn [fst snd]. split.
    + exact (proj1 (generateUniqueLinkCode_frame turns w w1 Throw Hrun)).
    + intros res [= <-]. discriminate.
  - left. cbn [fst snd]. split.
    + exact (proj1 (generateUniqueLinkCode_frame turns w w1 Hang Hrun)).
    + intros res [=].
Qed.

Lemma unassigned_code_matches_no_row (code : string) (w : World) :
  links_with_code code w = [] ->
  forall l, In l (links w) ->
            sql_eq (JStr (Links.link_code l)) (JStr code) = false.
Proof.
  intros Hnil l Hl.
  destruct (sql_eq (JStr (Links.link_code l)) (JStr code)) eqn:E; [| reflexivity].
  assert (Hin : In l (links_with_code code w))
    by (unfold links_with_code; apply filter_In; split; assumption).
  rewrite Hnil in Hin. destruct Hin.
Qed.

(** X8. Link codes stay unique: if no two rows of [links] carry the same
    code, then after any run of [POST /api/link/generate], whatever its
    outcome, no two rows do. *)
Theorem link_generate_keeps_codes_unique
    (turns : nat) (req : Req) (w : World) :
  sql_eq_reflexive_on_text ->
  NoDup (map Links.link_code (links w)) ->
  NoDup (map Links.link_code (links (snd (POST_link_generate turns req w)))).
Proof.
  intros Hrefl Hnodup. unfold POST_link_generate. cbn [route].
  destruct (authenticateToken req) as [res | req'] eqn:Hauth; [exact Hnodup |].
  destruct (authenticateToken_next req req' Hauth) as [claims ->].
  destruct (link_generate_run turns (set_user claims req) claims w eq_refl)
    as [[Hsame _] | [code [w1 [_ [Hrun Hdone]]]]].
  - rewrite Hsame. exact Hnodup.
  - rewrite Hdone. cbn [snd links insert_link set_links tick_query].
    rewrite (proj1 (generateUniqueLinkCode_frame turns w w1 _ Hrun)).
    rewrite map_app. apply NoDup_app; [exact Hnodup | |].
    + cbn [map]. constructor; [intros [] | constructor].
    + intros c Hc [Heq | []]. cbn [Links.link_code] in Heq. subst c.
      apply (links_with_code_nil code w Hrefl);
        [exact (generateUniqueLinkCode_unassigned turns w w1 code Hrun) | exact Hc].
Qed.

(** X9. A link that [POST /api/link/generate] has just returned resolves:
    in any later state of the store with the same [links], playback of its
    code answers the media of the caller's group as long as the store's
    clock is before the expiry, [Date.now()] of the generation plus 30 days,
    and answers 404 from that instant on. *)
Theorem generated_link_resolves_until_expiry
    (turns : nat) (req : Req) (claims : Claims) (w w' : World) (res : Response) :
  sql_eq_reflexive_on_text ->
  authenticateToken req = inr (set_user claims req) ->
  POST_link_generate turns req w = (Ret res, w') ->
  status res = 200 ->
  exists code,
    json res = link_ (DOMAIN ++ "/" ++ code) /\
    forall (play : Req) (later : World),
      params_code play = code ->
      links later = links w' ->
      pool_ok later (queries later) = true ->
      pool_ok later (S (queries later)) = true ->
      (db_now later < date_now w + 2592000000 ->
       fst (GET_link_content play later)
       = Ret (respond 200
                (media_ (media_of_group (field "groupId" (body req))
                           (userId claims) later)))) /\
      (date_now w + 2592000000 <= db_now later ->
       fst (GET_link_content play later)
       = Ret (respond 404 (error_ "Link not found or expired"))).
Proof.
  intros Hrefl Hauth Hrun Hok. unfold POST_link_generate in Hrun.
  rewrite (route_next _ _ _ _ _ Hauth) in Hrun. cbn [route] in Hrun.
  destruct (link_generate_run turns (set_user claims req) claims w eq_refl)
    as [[_ Hnot] | [code [w1 [_ [Hgen Hdone]]]]].
  - exfalso. apply (Hnot res); [rewrite Hrun; reflexivity | exact Hok].
  - rewrite Hdone in Hrun. injection Hrun as <- <-. cbn [body set_user] in *.
    change (30 * 24 * 60 * 60 * 1000) with 2592000000 in *.
    exists code. split; [reflexivity |].
    intros play later Hcode Hlinks Hp1 Hp2.
    pose proof (generateUniqueLinkCode_unassigned turns w w1 code Hgen) as Hfree.
    pose proof (unassigned_code_matches_no_row code w Hfree) as Hnomatch.
    assert (Hold : filter
                     (fun l => sql_eq (JStr (Links.link_code l)) (JStr code)
                               && (Links.expires_at l >? db_now later))
                     (links w) = []).
    { induction (links w) as [| l rows IH]; [reflexivity |].
      cbn [filter]. rewrite (Hnomatch l (or_introl eq_refl)). cbn [andb].
      apply IH. intros l' Hl'. apply Hnomatch. right. exact Hl'. }
    assert (Hlive : live_links_with_code code later
                    = if date_now w + 2592000000 >? db_now later
                      then [ {| Links.user_id := userId claims;
                                Links.link_code := code;
                                Links.group_id := field "groupId" (body req);
                                Links.created_at := db_now w1;
                                Links.expires_at := date_now w + 2592000000 |} ]
                      else []).
    { unfold live_links_with_code. rewrite Hlinks.
      cbn [links insert_link set_links tick_query db_now].
      rewrite (proj1 (generateUniqueLinkCode_frame turns w w1 _ Hgen)).
      rewrite filter_app, Hold. cbn [filter app Links.link_code Links.expires_at].
      rewrite Hrefl. cbn [andb].
      destruct (date_now w + 2592000000 >? db_now later); reflexivity. }
    split; intros Hclock.
    + destruct (Z.gtb_spec (date_now w + 2592000000) (db_now later)); [| lia].
      rewrite <- Hcode in Hlive.
      rewrite (link_content_hit play later _ [] Hp1 Hp2 Hlive). reflexivity.
    + rewrite (link_content_miss play later Hp1); [reflexivity |].
      rewrite Hcode, Hlive.
      destruct (Z.gtb_spec (date_now w + 2592000000) (db_now later));
        [lia | reflexivity].
Qed.

(** X10. A request without a group id is answered 400 "Group ID is
    required" before the allocator runs: no value is drawn, no query is
    sent and nothing changes. *)
Theorem link_generate_requires_group
    (turns : nat) (req : Req) (claims : Claims) (w : World) :
  authenticateToken req = inr (set_user claims req) ->
  truthy (field "groupId" (body req)) = false ->
  POST_link_generate turns req w
  = (Ret (respond 400 (error_ "Group ID is required")), w).
Proof.
  intros Hauth Hgroup. unfold POST_link_generate.
  rewrite (route_next _ _ _ _ _ Hauth). cbn [route].
  unfold link_generate. unfold_async. cbn [user set_user body]. cbv zeta.
  rewrite Hgroup. reflexivity.
Qed.

End GeneratedLinks.

Lemma link_generate_keeps_codes_unique_witness :
  NoDup (map Links.link_code
           (links (snd (POST_link_generate (platform := Sample.platform) 2
                          (Sample.as_alice [("groupId", JNum 3)]) Sample.w0)))).
Proof.
  apply (link_generate_keeps_codes_unique (platform := Sample.platform)
           2 (Sample.as_alice [("groupId", JNum 3)]) Sample.w0
           sample_sql_eq_reflexive).
  cbn. constructor; [intros [H | []]; discriminate H |].
  constructor; [intros [] | constructor].
Defined.


Lemma generated_link_resolves_until_expiry_witness :
  exists code,
    json (respond 200 (link_ "http://localhost:4000/4321"))
    = link_ (DOMAIN (platform := Sample.platform) ++ "/" ++ code) /\
    forall (play : Req) (later : World),
      params_code play = code ->
      links later
      = links (snd (POST_link_generate (platform := Sample.platform) 2
                      (Sample.as_alice [("groupId", JNum 3)]) Sample.w0)) ->
      pool_ok later (queries later) = true ->
      pool_ok later (S (queries later)) = true ->
      (db_now later < date_now Sample.w0 + 2592000000 ->
       fst (GET_link_content (platform := Sample.platform) play later)
       = Ret (respond 200
                (media_ (media_of_group (platform := Sample.platform)
                           (JNum 3) (JNum 7) later)))) /\
      (date_now Sample.w0 + 2592000000 <= db_now later ->
       fst (GET_link_content (platform := Sample.platform) play later)
       = Ret (respond 404 (error_ "Link not found or expired"))).
Proof.
  apply (generated_link_resolves_until_expiry (platform := Sample.platform)
           2 (Sample.as_alice [("groupId", JNum 3)]) Sample.alice Sample.w0
           (snd (POST_link_generate (platform := Sample.platform) 2
                   (Sample.as_alice [("groupId", JNum 3)]) Sample.w0))
           (respond 200 (link_ "http://localhost:4000/4321"))
           sample_sql_eq_reflexive);
    reflexivity.
Defined.

Lemma link_generate_requires_group_witness :
  POST_link_generate (platform := Sample.platform) 2
    (Sample.as_alice [("groupId", JStr EmptyString)]) Sample.w0
  = (Ret (respond 400 (error_ "Group ID is required")), Sample.w0).
Proof.
  apply (link_generate_requires_group (platform := Sample.platform)
           2 (Sample.as_alice [("groupId", JStr EmptyString)]) Sample.alice Sample.w0);
    reflexivity.
Defined.

(** *** The media registry *)

Section MediaRegistry.

Context {platform : Platform}.

Lemma media_upload_done (req : Req) (claims : Claims) (w : World) (fs : list File) :
  authenticateToken req = inr (set_user claims req) ->
  files req = Some fs -> fs <> [] ->
  pool_ok w (queries w) = true ->
  POST_media_upload req w
  = (Ret (respond 200 (message_ "Files uploaded successfully")),
     set_emitted
       (fun sent =>
          (sent ++ [ {| room := "user_" ++ toString (userId claims);
                        event := "mediaUpdated";
                        groupId := or_else (field "groupId" (body req)) JNull |} ])%list)
       (insert_media
          (map (fun file =>
                  {| Media.user_id := userId claims; Media.type := media_type file;
                     Media.file_path := filename file;
                     Media.group_id := or_else (field "groupId" (body req)) JNull |})
               fs)
          (tick_query w))).
Proof.
  intros Hauth Hfs Hne Hpool. unfold POST_media_upload.
  rewrite (route_next _ _ _ _ _ Hauth). cbn [route].
  unfold media_upload, io_emit. unfold_async.
  cbn [user set_user files body]. rewrite Hfs.
  destruct fs as [| f fs]; [contradiction |].
  cbv zeta. rewrite Hpool. reflexivity.
Qed.

Lemma media_list_done (req : Req) (claims : Claims) (w : World) :
  authenticateToken req = inr (set_user claims req) ->
  pool_ok w (queries w) = true ->
  GET_media_list req w
  = (Ret (respond 200 (media_ (media_of_user (userId claims) w))), tick_query w).
Proof.
  intros Hauth Hpool. unfold GET_media_list.
  rewrite (route_next _ _ _ _ _ Hauth). cbn [route].
  unfold media_list. unfold_async. cbn [user set_user]. rewrite Hpool. reflexivity.
Qed.

(** X11. The listing of an authenticated caller holds exactly the rows of
    [media] whose [user_id] the store finds equal to the caller's id, in the
    order of the table, and changes no table. *)
Theorem media_list_only_own_rows (req : Req) (claims : Claims) (w : World) :
  authenticateToken req = inr (set_user claims req) ->
  pool_ok w (queries w) = true ->
  exists rows,
    fst (GET_media_list req w) = Ret (respond 200 (media_ rows)) /\
    (forall m, In m rows <->
               In m (media w) /\ sql_eq (Media.user_id m) (userId claims) = true) /\
    same_tables w (snd (GET_media_list req w)).
Proof.
  intros Hauth Hpool. rewrite (media_list_done req claims w Hauth Hpool).
  exists (media_of_user (userId claims) w). split; [reflexivity |].
  split; [| repeat split].
  intros m. unfold media_of_user. apply filter_In.
Qed.

(** X12. After an upload of N >= 1 files, the caller's listing is the
    caller's earlier listing followed by the N new rows, one per file in the
    order of the upload, each with the file's stored name, the part of its
    MIME type before the slash and the group of the request; this when the
    store finds the caller's id equal to itself. *)
Theorem media_upload_then_list (up listing : Req) (claims : Claims) (w : World)
    (fs : list File) :
  authenticateToken up = inr (set_user claims up) ->
  authenticateToken listing = inr (set_user claims listing) ->
  files up = Some fs -> fs <> [] ->
  pool_ok w (queries w) = true ->
  pool_ok w (S (queries w)) = true ->
  sql_eq (userId claims) (userId claims) = true ->
  fst (GET_media_list listing (snd (POST_media_upload up w)))
  = Ret (respond 200
           (media_
              (media_of_user (userId claims) w
               ++ map (fun file =>
                         {| Media.user_id := userId claims;
                            Media.type := media_type file;
                            Media.file_path := filename file;
                            Media.group_id :=
                              or_else (field "groupId" (body up)) JNull |})
                      fs)%list)).
Proof.
  intros Hup Hlist Hfs Hne Hp1 Hp2 Hself.
  rewrite (media_upload_done up claims w fs Hup Hfs Hne Hp1). cbn [snd].
  rewrite (media_list_done listing claims _ Hlist);
    [| cbn [pool_ok queries set_emitted insert_media set_media tick_query];
       exact Hp2].
  cbn [fst]. unfold media_of_user.
  cbn [media set_emitted insert_media set_media tick_query].
  rewrite filter_app.
  assert (Hnew : forall (mk : File -> Media.row) (l : list File),
            (forall file, Media.user_id (mk file) = userId claims) ->
            filter (fun m => sql_eq (Media.user_id m) (userId claims)) (map mk l)
            = map mk l).
  { intros mk l Hmk. induction l as [| f l IH]; [reflexivity |].
    cbn [map filter]. rewrite Hmk, Hself, IH. reflexivity. }
  rewrite Hnew; [reflexivity | intros file; reflexivity].
Qed.

End MediaRegistry.

Lemma media_list_only_own_rows_witness :
  exists rows,
    fst (GET_media_list (platform := Sample.platform) (Sample.as_alice []) Sample.w0)
    = Ret (respond 200 (media_ rows)) /\
    (forall m, In m rows <->
               In m (media Sample.w0) /\
               sql_eq (Platform := Sample.platform) (Media.user_id m) (JNum 7) = true) /\
    same_tables Sample.w0
      (snd (GET_media_list (platform := Sample.platform) (Sample.as_alice []) Sample.w0)).
Proof.
  apply (media_list_only_own_rows (platform := Sample.platform)
           (Sample.as_alice []) Sample.alice Sample.w0);
    reflexivity.
Defined.

Lemma media_upload_then_list_witness :
  let png := {| mimetype := "image/png"; filename := "17-a.png" |} in
  let up := Sample.request (Some "Bearer alice.jwt") [("groupId", JNum 3)]
              EmptyString (Some [png]) in
  fst (GET_media_list (platform := Sample.platform) (Sample.as_alice [])
         (snd (POST_media_upload (platform := Sample.platform) up Sample.w0)))
  = Ret (respond 200
           (media_ [ Sample.slide;
                     {| Media.user_id := JNum 7; Media.type := "image";
                        Media.file_path := "17-a.png"; Media.group_id := JNum 3 |} ])).
Proof.
  intros png up.
  apply (media_upload_then_list (platform := Sample.platform)
           up (Sample.as_alice []) Sample.alice Sample.w0 [png]);
    (reflexivity || discriminate).
Defined.

(** *** Gateway credentials *)

Section GatewayCredentials.

Context {platform : Platform}.

(** The client that [loadRazorpayKeys] leaves in [razorpayInstance]. *)
Lemma loadRazorpayKeys_run (w : World) :
  loadRazorpayKeys w
  = (Ret tt,
     set_razorpayInstance
       (if pool_ok w (queries w)
        then match latest_payment_settings w with
             | [] => None
             | r :: _ =>
                 if Razorpay_accepts (PaymentSettings.razorpay_key_id r)
                      (PaymentSettings.razorpay_key_secret r)
                 then Some {| key_id := PaymentSettings.razorpay_key_id r;
                              key_secret := PaymentSettings.razorpay_key_secret r |}
                 else None
             end
        else None)
       (tick_query w)).
Proof.
  unfold loadRazorpayKeys, new_Razorpay, assign_razorpayInstance. unfold_async.
  unfold throw.
  destruct (pool_ok w (queries w)); [| reflexivity].
  destruct (latest_payment_settings w) as [| r rows]; [reflexivity |].
  destruct (Razorpay_accepts _ _); reflexivity.
Qed.

Lemma latest_after_insert (rows : list PaymentSettings.row) (r : PaymentSettings.row)
    (w : World) :
  payment_settings w = (rows ++ [r])%list -> latest_payment_settings w = [r].
Proof.
  intros H. unfold latest_payment_settings. rewrite H, rev_app_distr. reflexivity.
Qed.

(** X13. [loadRazorpayKeys] never rejects and changes no table.  Afterwards
    the client holds the credentials of the row of [payment_settings]
    inserted last, when the pool answers and the Razorpay constructor takes
    them; it is [null] when the pool fails, when the table is empty and when
    the constructor throws. *)
Theorem loadRazorpayKeys_settles (w : World) :
  let w' := snd (loadRazorpayKeys w) in
  fst (loadRazorpayKeys w) = Ret tt /\
  same_tables w w' /\
  (pool_ok w (queries w) = false -> razorpayInstance w' = None) /\
  (payment_settings w = [] -> razorpayInstance w' = None) /\
  (forall rows r,
     payment_settings w = (rows ++ [r])%list ->
     pool_ok w (queries w) = true ->
     razorpayInstance w'
     = if Razorpay_accepts (PaymentSettings.razorpay_key_id r)
            (PaymentSettings.razorpay_key_secret r)
       then Some {| key_id := PaymentSettings.razorpay_key_id r;
                    key_secret := PaymentSettings.razorpay_key_secret r |}
       else None).
Proof.
  cbv zeta. rewrite loadRazorpayKeys_run. cbn [fst snd razorpayInstance set_razorpayInstance].
  split; [reflexivity |]. split; [repeat split |]. split; [| split].
  - intros ->. reflexivity.
  - intros Hempty. unfold latest_payment_settings. rewrite Hempty.
    destruct (pool_ok w (queries w)); reflexivity.
  - intros rows r Hrows ->. rewrite (latest_after_insert rows r w Hrows). reflexivity.
Qed.

(** X14. While no credentials are stored, the server as it starts (after
    [loadRazorpayKeys]) answers every authenticated verification with 500
    "Payment gateway not configured", whatever the body, and changes
    nothing. *)
Theorem verify_without_settings_is_not_configured
    (w : World) (req : Req) (claims : Claims) :
  payment_settings w = [] ->
  authenticateToken req = inr (set_user claims req) ->
  let started := snd (loadRazorpayKeys w) in
  POST_payment_verify req started
  = (Ret (respond 500 (error_ "Payment gateway not configured")), started).
Proof.
  intros Hempty Hauth. cbv zeta. rewrite loadRazorpayKeys_run. cbn [snd].
  unfold latest_payment_settings. rewrite Hempty. cbn [rev].
  unfold POST_payment_verify. rewrite (route_next _ _ _ _ _ Hauth). cbn [route].
  unfold payment_verify. unfold_async. cbn [razorpayInstance set_razorpayInstance].
  destruct (pool_ok w (queries w)); reflexivity.
Qed.

Lemma post_payment_settings_done (req : Req) (claims : Claims) (w : World)
    (id secret : string) :
  authenticateToken req = inr (set_user claims req) ->
  email claims = JStr "admin@gnetworkservices.in" ->
  field "razorpay_key_id" (body req) = JStr id -> id <> EmptyString ->
  field "razorpay_key_secret" (body req) = JStr secret -> secret <> EmptyString ->
  pool_ok w (queries w) = true ->
  POST_admin_payment_settings req w
  = (Ret (respond 200 (message_ "Payment settings updated")),
     set_razorpayInstance
       (if pool_ok w (S (queries w))
        then if Razorpay_accepts id secret
             then Some {| key_id := id; key_secret := secret |}
             else None
        else None)
       (tick_query
          (insert_payment_settings (JStr id) (JStr secret) (tick_query w)))).
Proof.
  intros Hauth Hadmin Hid Hidne Hsecret Hsecretne Hpool.
  apply truthy_JStr in Hidne. apply truthy_JStr in Hsecretne.
  unfold POST_admin_payment_settings. rewrite (route_next _ _ _ _ _ Hauth).
  assert (Hpass : verifySuperAdmin (set_user claims req) = inr (set_user claims req)).
  { unfold verifySuperAdmin. cbn [user set_user]. rewrite Hadmin.
    cbn [strict_eq]. rewrite String.eqb_refl. reflexivity. }
  rewrite (route_next _ _ _ _ _ Hpass). cbn [route].
  unfold post_payment_settings. unfold_async. cbn [body set_user]. cbv zeta.
  rewrite Hid, Hsecret, Hidne, Hsecretne. cbn [andb negb]. rewrite Hpool.
  rewrite loadRazorpayKeys_run.
  rewrite (latest_after_insert (payment_settings w)
             {| PaymentSettings.razorpay_key_id := id;
                PaymentSettings.razorpay_key_secret := secret |});
    [| reflexivity].
  reflexivity.
Qed.

(** X15. When the administrator posts a key id and a secret as strings, the
    row is appended and the answer is 200; a read of the settings then
    answers that key id, the one of the latest row, and the client holds the
    posted pair when the Razorpay constructor takes it. *)
Theorem payment_settings_post_then_get (post get : Req) (claims : Claims)
    (w : World) (id secret : string) :
  authenticateToken post = inr (set_user claims post) ->
  authenticateToken get = inr (set_user claims get) ->
  email claims = JStr "admin@gnetworkservices.in" ->
  field "razorpay_key_id" (body post) = JStr id -> id <> EmptyString ->
  field "razorpay_key_secret" (body post) = JStr secret -> secret <> EmptyString ->
  pool_ok w (queries w) = true ->
  pool_ok w (S (queries w)) = true ->
  pool_ok w (S (S (queries w))) = true ->
  let w' := snd (POST_admin_payment_settings post w) in
  fst (POST_admin_payment_settings post w)
  = Ret (respond 200 (message_ "Payment settings updated")) /\
  payment_settings w'
  = (payment_settings w
     ++ [ {| PaymentSettings.razorpay_key_id := id;
             PaymentSettings.razorpay_key_secret := secret |} ])%list /\
  razorpayInstance w'
  = (if Razorpay_accepts id secret
     then Some {| key_id := id; key_secret := secret |} else None) /\
  fst (GET_admin_payment_settings get w')
  = Ret (respond 200 (razorpay_key_id_ id)).
Proof.
  intros Hpost Hget Hadmin Hid Hidne Hsecret Hsecretne Hp0 Hp1 Hp2. cbv zeta.
  rewrite (post_payment_settings_done post claims w id secret
             Hpost Hadmin Hid Hidne Hsecret Hsecretne Hp0).
  rewrite Hp1. cbn [fst snd]. split; [reflexivity |].
  split; [reflexivity |]. split; [reflexivity |].
  unfold GET_admin_payment_settings. rewrite (route_next _ _ _ _ _ Hget).
  assert (Hpass : verifySuperAdmin (set_user claims get) = inr (set_user claims get)).
  { unfold verifySuperAdmin. cbn [user set_user]. rewrite Hadmin.
    cbn [strict_eq]. rewrite String.eqb_refl. reflexivity. }
  rewrite (route_next _ _ _ _ _ Hpass). cbn [route].
  unfold get_payment_settings. unfold_async.
  cbn [pool_ok queries set_razorpayInstance tick_query insert_payment_settings
         set_payment_settings].
  rewrite Hp2.
  rewrite (latest_after_insert (payment_settings w)
             {| PaymentSettings.razorpay_key_id := id;
                PaymentSettings.razorpay_key_secret := secret |});
    reflexivity.
Qed.

(** X16. When the insert of new credentials succeeds and the query that
    reloads them fails, the answer is still 200 "Payment settings updated",
    the row is stored, and the client is left [null]: the gateway is not
    configured until the next successful reload. *)
Theorem payment_settings_reload_failure (req : Req) (claims : Claims)
    (w : World) (id secret : string) :
  authenticateToken req = inr (set_user claims req) ->
  email claims = JStr "admin@gnetworkservices.in" ->
  field "razorpay_key_id" (body req) = JStr id -> id <> EmptyString ->
  field "razorpay_key_secret" (body req) = JStr secret -> secret <> EmptyString ->
  pool_ok w (queries w) = true ->
  pool_ok w (S (queries w)) = false ->
  let w' := snd (POST_admin_payment_settings req w) in
  fst (POST_admin_payment_settings req w)
  = Ret (respond 200 (message_ "Payment settings updated")) /\
  payment_settings w'
  = (payment_settings w
     ++ [ {| PaymentSettings.razorpay_key_id := id;
             PaymentSettings.razorpay_key_secret := secret |} ])%list /\
  razorpayInstance w' = None.
Proof.
  intros Hauth Hadmin Hid Hidne Hsecret Hsecretne Hp0 Hp1. cbv zeta.
  rewrite (post_payment_settings_done req claims w id secret
             Hauth Hadmin Hid Hidne Hsecret Hsecretne Hp0).
  rewrite Hp1. repeat split.
Qed.

(** X17. Rotation takes effect at once: after the administrator has posted
    a secret that the constructor takes, a verification signed with the new
    secret is answered "Payment verified successfully", and one signed with
    another secret whose HMAC differs is answered "Invalid payment
    signature". *)
Theorem payment_settings_rotation (post verify : Req) (admin caller : Claims)
    (w : World) (id secret other : string) (order payment : string) :
  authenticateToken post = inr (set_user admin post) ->
  email admin = JStr "admin@gnetworkservices.in" ->
  field "razorpay_key_id" (body post) = JStr id -> id <> EmptyString ->
  field "razorpay_key_secret" (body post) = JStr secret -> secret <> EmptyString ->
  pool_ok w (queries w) = true ->
  pool_ok w (S (queries w)) = true ->
  Razorpay_accepts id secret = true ->
  authenticateToken verify = inr (set_user caller verify) ->
  field "razorpay_order_id" (body verify) = JStr order -> order <> EmptyString ->
  field "razorpay_payment_id" (body verify) = JStr payment -> payment <> EmptyString ->
  let w' := snd (POST_admin_payment_settings post w) in
  let signed key := createHmac_sha256_hex key (order ++ "|" ++ payment) in
  (field "razorpay_signature" (body verify) = JStr (signed secret) ->
   signed secret <> EmptyString ->
   fst (POST_payment_verify verify w')
   = Ret (respond 200 (message_ "Payment verified successfully")))
  /\
  (field "razorpay_signature" (body verify) = JStr (signed other) ->
   signed other <> EmptyString -> signed other <> signed secret ->
   fst (POST_payment_verify verify w')
   = Ret (respond 400 (error_ "Invalid payment signature"))).
Proof.
  intros Hpost Hadmin Hid Hidne Hsecret Hsecretne Hp0 Hp1 Hacc
         Hverify Hord Hordne Hpay Hpayne. cbv zeta.
  rewrite (post_payment_settings_done post admin w id secret
             Hpost Hadmin Hid Hidne Hsecret Hsecretne Hp0).
  rewrite Hp1, Hacc. cbn [snd].
  apply truthy_JStr in Hordne. apply truthy_JStr in Hpayne.
  unfold POST_payment_verify. rewrite (route_next _ _ _ _ _ Hverify). cbn [route].
  unfold payment_verify. unfold_async. cbn [body set_user razorpayInstance
    set_razorpayInstance key_secret]. cbv zeta.
  rewrite Hord, Hpay, Hordne, Hpayne. cbn [toString andb].
  split; intros Hsig Hne.
  - apply truthy_JStr in Hne. rewrite Hsig, Hne. cbn [negb strict_eq].
    rewrite String.eqb_refl. reflexivity.
  - intros Hdiff. apply truthy_JStr in Hne. rewrite Hsig, Hne. cbn [negb strict_eq].
    assert (E : (createHmac_sha256_hex secret (order ++ "|" ++ payment)
                 =? createHmac_sha256_hex other (order ++ "|" ++ payment))%string
                = false)
      by (apply String.eqb_neq; intros E; apply Hdiff; symmetry; exact E).
    rewrite E. reflexivity.
Qed.

(** X18. A post of credentials that lacks the key id or the secret is
    answered 400: nothing is inserted, the client in use is kept and no
    query is sent. *)
Theorem payment_settings_requires_both (req : Req) (claims : Claims) (w : World) :
  authenticateToken req = inr (set_user claims req) ->
  email claims = JStr "admin@gnetworkservices.in" ->
  truthy (field "razorpay_key_id" (body req))
  && truthy (field "razorpay_key_secret" (body req)) = false ->
  POST_admin_payment_settings req w
  = (Ret (respond 400 (error_ "Razorpay key ID and secret are required")), w).
Proof.
  intros Hauth Hadmin Hfields.
  unfold POST_admin_payment_settings. rewrite (route_next _ _ _ _ _ Hauth).
  assert (Hpass : verifySuperAdmin (set_user claims req) = inr (set_user claims req)).
  { unfold verifySuperAdmin. cbn [user set_user]. rewrite Hadmin.
    cbn [strict_eq]. rewrite String.eqb_refl. reflexivity. }
  rewrite (route_next _ _ _ _ _ Hpass). cbn [route].
  unfold post_payment_settings. unfold_async. cbn [body set_user]. cbv zeta.
  rewrite Hfields. reflexivity.
Qed.

End GatewayCredentials.

Lemma verify_without_settings_is_not_configured_witness :
  let started := snd (loadRazorpayKeys (platform := Sample.platform) Sample.w0) in
  POST_payment_verify (platform := Sample.platform)
    (Sample.as_alice
       [("razorpay_order_id", JStr "order_1");
        ("razorpay_payment_id", JStr "pay_1");
        ("razorpay_signature", JStr "hmac[s3cret][order_1|pay_1]")])
    started
  = (Ret (respond 500 (error_ "Payment gateway not configured")), started).
Proof.
  apply (verify_without_settings_is_not_configured (platform := Sample.platform)
           Sample.w0 _ Sample.alice);
    reflexivity.
Defined.

Lemma payment_settings_post_then_get_witness :
  let post := SampleAccounts.as_admin SampleAccounts.new_keys in
  let w' := snd (POST_admin_payment_settings (platform := Sample.platform)
                   post Sample.w0) in
  fst (POST_admin_payment_settings (platform := Sample.platform) post Sample.w0)
  = Ret (respond 200 (message_ "Payment settings updated")) /\
  payment_settings w'
  = [ {| PaymentSettings.razorpay_key_id := "rzp_live";
         PaymentSettings.razorpay_key_secret := "n3w" |} ] /\
  razorpayInstance w' = Some {| key_id := "rzp_live"; key_secret := "n3w" |} /\
  fst (GET_admin_payment_settings (platform := Sample.platform)
         (SampleAccounts.as_admin []) w')
  = Ret (respond 200 (razorpay_key_id_ "rzp_live")).
Proof.
  intros post.
  apply (payment_settings_post_then_get (platform := Sample.platform)
           post (SampleAccounts.as_admin []) Sample.admin Sample.w0 "rzp_live" "n3w");
    (reflexivity || discriminate).
Defined.

Lemma payment_settings_reload_failure_witness :
  let post := SampleAccounts.as_admin SampleAccounts.new_keys in
  let w := SampleAccounts.world_failing_at 1 in
  let w' := snd (POST_admin_payment_settings (platform := Sample.platform) post w) in
  fst (POST_admin_payment_settings (platform := Sample.platform) post w)
  = Ret (respond 200 (message_ "Payment settings updated")) /\
  payment_settings w'
  = [ {| PaymentSettings.razorpay_key_id := "rzp_live";
         PaymentSettings.razorpay_key_secret := "n3w" |} ] /\
  razorpayInstance w' = None.
Proof.
  intros post w.
  apply (payment_settings_reload_failure (platform := Sample.platform)
           post Sample.admin w "rzp_live" "n3w");
    (reflexivity || discriminate).
Defined.

Lemma payment_settings_rotation_witness :
  let post := SampleAccounts.as_admin SampleAccounts.new_keys in
  let w' := snd (POST_admin_payment_settings (platform := Sample.platform)
                   post Sample.w0) in
  let verify signature :=
    Sample.as_alice [("razorpay_order_id", JStr "order_1");
                     ("razorpay_payment_id", JStr "pay_1");
                     ("razorpay_signature", JStr signature)] in
  fst (POST_payment_verify (platform := Sample.platform)
         (verify "hmac[n3w][order_1|pay_1]") w')
  = Ret (respond 200 (message_ "Payment verified successfully")) /\
  fst (POST_payment_verify (platform := Sample.platform)
         (verify "hmac[s3cret][order_1|pay_1]") w')
  = Ret (respond 400 (error_ "Invalid payment signature")).
Proof.
  intros post w' verify. split.
  - apply (proj1 (payment_settings_rotation (platform := Sample.platform)
                    post (verify "hmac[n3w][order_1|pay_1]")
                    Sample.admin Sample.alice Sample.w0
                    "rzp_live" "n3w" "s3cret" "order_1" "pay_1"
                    eq_refl eq_refl eq_refl ltac:(discriminate)
                    eq_refl ltac:(discriminate) eq_refl eq_refl eq_refl
                    eq_refl eq_refl ltac:(discriminate)
                    eq_refl ltac:(discriminate)));
      [reflexivity | discriminate].
  - apply (proj2 (payment_settings_rotation (platform := Sample.platform)
                    post (verify "hmac[s3cret][order_1|pay_1]")
                    Sample.admin Sample.alice Sample.w0
                    "rzp_live" "n3w" "s3cret" "order_1" "pay_1"
                    eq_refl eq_refl eq_refl ltac:(discriminate)
                    eq_refl ltac:(discriminate) eq_refl eq_refl eq_refl
                    eq_refl eq_refl ltac:(discriminate)
                    eq_refl ltac:(discriminate)));
      [reflexivity | discriminate | discriminate].
Defined.

Lemma payment_settings_requires_both_witness :
  POST_admin_payment_settings (platform := Sample.platform)
    (SampleAccounts.as_admin [("razorpay_key_id", JStr "rzp_live")]) Sample.w0
  = (Ret (respond 400 (error_ "Razorpay key ID and secret are required")), Sample.w0).
Proof.
  apply (payment_settings_requires_both (platform := Sample.platform)
           (SampleAccounts.as_admin [("razorpay_key_id", JStr "rzp_live")])
           Sample.admin Sample.w0);
    reflexivity.
Defined.

(** *** What no route writes *)

Section Frames.

Context {platform : Platform}.

(** A run of the allocator moves the two counters and nothing else. *)
Lemma generateUniqueLinkCode_counters_only {A : Type} (f : World -> A) :
  (forall w, f (tick_query w) = f w) ->
  (forall w, f (tick_draw w) = f w) ->
  forall (turns : nat) (w w' : World) (r : outcome string),
    generateUniqueLinkCode turns w = (r, w') -> f w' = f w.
Proof.
  intros Hq Hd turns.
  induction turns as [| turns IH]; intros w w' r Hrun.
  - injection Hrun as _ <-. reflexivity.
  - rewrite generateUniqueLinkCode_turn in Hrun. cbv zeta in Hrun.
    destruct (pool_ok w (queries w)).
    + destruct (links_with_code (code_of (random w (draws w))) w).
      * injection Hrun as _ <-. rewrite Hq, Hd. reflexivity.
      * apply IH in Hrun. rewrite Hrun, Hq, Hd. reflexivity.
    + injection Hrun as _ <-. rewrite Hq, Hd. reflexivity.
Qed.

Lemma generateUniqueLinkCode_same_accounts (turns : nat) (w w' : World)
    (r : outcome string) :
  generateUniqueLinkCode turns w = (r, w') -> same_accounts w w'.
Proof.
  intros Hrun. unfold same_accounts. repeat split.
  - exact (generateUniqueLinkCode_counters_only users
             (fun _ => eq_refl) (fun _ => eq_refl) turns w w' r Hrun).
  - exact (generateUniqueLinkCode_counters_only user_packages
             (fun _ => eq_refl) (fun _ => eq_refl) turns w w' r Hrun).
  - exact (generateUniqueLinkCode_counters_only payments
             (fun _ => eq_refl) (fun _ => eq_refl) turns w w' r Hrun).
Qed.

(** Splits on every test a handler makes and closes the goal by computation. *)
Ltac all_paths :=
  repeat match goal with
         | |- context [match ?x with _ => _ end] =>
             lazymatch x with
             | context [match _ with _ => _ end] => fail
             | _ => destruct x
             end
         end;
  repeat split.

Lemma login_frame (req : Req) (w : World) : same_tables w (snd (login req w)).
Proof.
  unfold same_tables, login. unfold_async. unfold throw. cbv zeta. all_paths.
Qed.

Lemma media_upload_frame (req : Req) (w : World) :
  same_accounts w (snd (media_upload req w)).
Proof.
  unfold same_accounts, media_upload, io_emit. unfold_async. unfold throw. cbv zeta. all_paths.
Qed.

Lemma media_list_frame (req : Req) (w : World) :
  same_tables w (snd (media_list req w)).
Proof.
  unfold same_tables, media_list. unfold_async. unfold throw. all_paths.
Qed.

Lemma link_generate_frame (turns : nat) (req : Req) (w : World) :
  same_accounts w (snd (link_generate turns req w)).
Proof.
  unfold link_generate. unfold_async.
  destruct (user req) as [claims |]; [| repeat split]. cbv zeta.
  destruct (negb (truthy (field "groupId" (body req)))); [repeat split |].
  destruct (generateUniqueLinkCode turns w) as [r w1] eqn:Hrun.
  pose proof (generateUniqueLinkCode_same_accounts turns w w1 r Hrun) as [Hu [Hs Hp]].
  unfold same_accounts.
  destruct r as [code | |]; [destruct (pool_ok w1 (queries w1)) | |];
    cbn [snd users user_packages payments insert_link set_links tick_query];
    repeat split; assumption.
Qed.

Lemma link_content_frame (req : Req) (w : World) :
  same_tables w (snd (link_content req w)).
Proof.
  unfold same_tables, link_content. unfold_async. unfold throw. cbv zeta. all_paths.
Qed.

Lemma get_payment_settings_frame (req : Req) (w : World) :
  same_tables w (snd (get_payment_settings req w)).
Proof.
  unfold same_tables, get_payment_settings. unfold_async. unfold throw. all_paths.
Qed.

Lemma post_payment_settings_frame (req : Req) (w : World) :
  same_accounts w (snd (post_payment_settings req w)).
Proof.
  unfold same_accounts, post_payment_settings. unfold_async. cbv zeta.
  destruct (negb _); [repeat split |].
  destruct (pool_ok w (queries w)); [| repeat split].
  rewrite loadRazorpayKeys_run. repeat split.
Qed.

Lemma payment_verify_frame (req : Req) (w : World) :
  same_tables w (snd (payment_verify req w)).
Proof. rewrite payment_verify_pure. repeat split. Qed.

Lemma payment_offline_frame (req : Req) (w : World) :
  same_tables w (snd (payment_offline req w)).
Proof. repeat split. Qed.

Lemma same_tables_accounts (w w' : World) : same_tables w w' -> same_accounts w w'.
Proof.
  intros [Hu [_ [_ [_ [Hs Hp]]]]]. repeat split; assumption.
Qed.

Lemma route_frame (P : World -> World -> Prop) (mws : list Middleware)
    (handler : Req -> M Response) :
  (forall w, P w w) ->
  (forall req w, P w (snd (handler req w))) ->
  forall req w, P w (snd (route mws handler req w)).
Proof.
  intros Hrefl Hh. induction mws as [| mw rest IH]; intros req w; cbn [route].
  - apply Hh.
  - destruct (mw req) as [res | req']; [apply Hrefl | apply IH].
Qed.

(** X19. No route of the table ever writes [users], [user_packages] or
    [payments]: whatever the request and its outcome, these three tables are
    afterwards what they were.  (Accounts are added by registration alone,
    and nothing in the server records a subscription or a payment.) *)
Theorem routes_never_write_accounts
    (turns : nat) (path : string) (bearer : bool) (handler : Req -> M Response)
    (req : Req) (w : World) :
  In (path, bearer, handler) (routes turns) ->
  same_accounts w (snd (handler req w)).
Proof.
  assert (Hrefl : forall w0, same_accounts w0 w0) by (intros w0; repeat split).
  intros Hin. unfold routes in Hin. cbn [In] in Hin.
  repeat (destruct Hin as [Hin | Hin];
          [ injection Hin; intros; subst handler;
            unfold POST_login, POST_media_upload, GET_media_list, POST_link_generate,
              GET_link_content, GET_admin_payment_settings,
              POST_admin_payment_settings, POST_payment_verify,
              POST_payment_offline;
            apply (route_frame same_accounts); [exact Hrefl | intros req0 w0] | ]);
    try contradiction.
  - apply same_tables_accounts, login_frame.
  - apply media_upload_frame.
  - apply same_tables_accounts, media_list_frame.
  - apply link_generate_frame.
  - apply same_tables_accounts, link_content_frame.
  - apply same_tables_accounts, get_payment_settings_frame.
  - apply post_payment_settings_frame.
  - apply same_tables_accounts, payment_verify_frame.
  - apply same_tables_accounts, payment_offline_frame.
Qed.

(** X20. Login, the two listings, playback, verification and the offline
    route only read: every route but upload, link generation and the post of
    credentials leaves all six tables as they were. *)
Theorem reading_routes_write_nothing
    (turns : nat) (path : string) (bearer : bool) (handler : Req -> M Response)
    (req : Req) (w : World) :
  In (path, bearer, handler) (routes turns) ->
  path <> "POST /api/media/upload" ->
  path <> "POST /api/link/generate" ->
  path <> "POST /api/admin/payment-settings" ->
  same_tables w (snd (handler req w)).
Proof.
  assert (Hrefl : forall w0, same_tables w0 w0) by (intros w0; repeat split).
  intros Hin Hup Hgen Hpost. unfold routes in Hin. cbn [In] in Hin.
  repeat (destruct Hin as [Hin | Hin];
          [ injection Hin; intros; subst handler path;
            first
              [ solve [ exfalso; apply Hup; reflexivity
                      | exfalso; apply Hgen; reflexivity
                      | exfalso; apply Hpost; reflexivity ]
              | unfold POST_login, GET_media_list, GET_link_content,
                  GET_admin_payment_settings, POST_payment_verify,
                  POST_payment_offline;
                apply (route_frame same_tables); [exact Hrefl | intros req0 w0] ]
          | ]);
    try contradiction.
  - apply login_frame.
  - apply media_list_frame.
  - apply link_content_frame.
  - apply get_payment_settings_frame.
  - apply payment_verify_frame.
  - apply payment_offline_frame.
Qed.

End Frames.

Lemma routes_never_write_accounts_witness :
  same_accounts Sample.w0
    (snd (POST_link_generate (platform := Sample.platform) 2
            (Sample.as_alice [("groupId", JNum 3)]) Sample.w0)).
Proof.
  apply (routes_never_write_accounts (platform := Sample.platform)
           2 "POST /api/link/generate" true).
  cbn. do 3 right. left. reflexivity.
Defined.

Lemma reading_routes_write_nothing_witness :
  same_tables Sample.w0
    (snd (GET_link_content (platform := Sample.platform)
            (Sample.request None [] "2222" None) Sample.w0)).
Proof.
  apply (reading_routes_write_nothing (platform := Sample.platform)
           0 "GET /api/link/:code/content" false);
    [cbn; do 4 right; left; reflexivity | discriminate ..].
Defined.

(** *** Rooms, stored names and media types *)

Lemma num_toString_inj (n m : Z) : num_toString n = num_toString m -> n = m.
Proof.
  unfold num_toString. intros H. apply DecimalZ.to_int_inj.
  assert (Hparse : forall z, NilZero.int_of_string (NilZero.string_of_int (Z.to_int z))
                             = Some (Z.to_int z)).
  { intros z. apply NilZero.isi; destruct z as [| p | p]; cbn; try discriminate;
      intros E; injection E as E; exact (DecimalPos.Unsigned.to_uint_nonnil p E). }
  pose proof (Hparse n) as Hn. rewrite H, Hparse in Hn.
  injection Hn as Hn. symmetry. exact Hn.
Qed.

(** X21. The event of an upload goes to the room of the uploader only: a
    socket that has joined with a user id receives it exactly when the id
    prints as the uploader's does, which for two numbers means that they are
    equal. *)
Theorem upload_event_reaches_own_room_only {platform : Platform}
    (req : Req) (claims : Claims) (w : World) (fs : list File) :
  authenticateToken req = inr (set_user claims req) ->
  files req = Some fs -> fs <> [] ->
  pool_ok w (queries w) = true ->
  exists e,
    emitted (snd (POST_media_upload req w)) = (emitted w ++ [e])%list /\
    (forall socket joined,
       receives (joinUserRoom socket joined []) socket e
       = (toString joined =? toString (userId claims))%string) /\
    (forall socket a b,
       userId claims = JNum a ->
       receives (joinUserRoom socket (JNum b) []) socket e = (a =? b)).
Proof.
  intros Hauth Hfs Hne Hpool.
  rewrite (media_upload_done req claims w fs Hauth Hfs Hne Hpool).
  eexists. split; [reflexivity |].
  assert (Hroom : forall socket joined,
            receives (joinUserRoom socket joined []) socket
              {| room := "user_" ++ toString (userId claims);
                 event := "mediaUpdated";
                 groupId := or_else (field "groupId" (body req)) JNull |}
            = (toString joined =? toString (userId claims))%string).
  { intros socket joined. unfold receives, joinUserRoom.
    cbn [existsb fst snd room]. rewrite String.eqb_refl, orb_false_r.
    cbn [andb append String.eqb Ascii.eqb Bool.eqb]. reflexivity. }
  split; [exact Hroom |].
  intros socket a b Ha. rewrite Hroom, Ha. cbn [toString].
  destruct (Z.eqb_spec a b) as [-> | Hab].
  - apply String.eqb_refl.
  - apply String.eqb_neq. intros E. apply Hab. symmetry.
    exact (num_toString_inj b a E).
Qed.

Lemma upload_event_reaches_own_room_only_witness :
  let png := {| mimetype := "image/png"; filename := "17-a.png" |} in
  let req := Sample.request (Some "Bearer alice.jwt") [] EmptyString (Some [png]) in
  exists e,
    emitted (snd (POST_media_upload (platform := Sample.platform) req Sample.w0))
    = (emitted Sample.w0 ++ [e])%list /\
    (forall socket joined,
       receives (joinUserRoom socket joined []) socket e
       = (toString joined =? "7")%string) /\
    (forall socket a b,
       JNum 7 = JNum a ->
       receives (joinUserRoom socket (JNum b) []) socket e = (a =? b)).
Proof.
  intros png req.
  apply (upload_event_reaches_own_room_only (platform := Sample.platform)
           req Sample.alice Sample.w0 [png]);
    (reflexivity || discriminate).
Defined.

Lemma digits_have_no_dash (d : Decimal.uint) :
  occurs "-" (NilEmpty.string_of_uint d) = false.
Proof.
  induction d as [| d IH | d IH | d IH | d IH | d IH | d IH | d IH | d IH | d IH | d IH];
    [reflexivity | cbn [NilEmpty.string_of_uint occurs]; rewrite IH; reflexivity ..].
Qed.

Lemma num_toString_has_no_dash (n : Z) : 0 <= n -> occurs "-" (num_toString n) = false.
Proof.
  intros Hn. unfold num_toString. destruct n as [| p | p]; [reflexivity | | lia].
  cbn [Z.to_int NilZero.string_of_int]. unfold NilZero.string_of_uint.
  destruct (Pos.to_uint p) eqn:E;
    [reflexivity | rewrite <- E; apply digits_have_no_dash ..].
Qed.

Lemma append_dash_inj (s1 : string) :
  forall s2 r1 r2,
    occurs "-" s1 = false -> occurs "-" s2 = false ->
    s1 ++ "-" ++ r1 = s2 ++ "-" ++ r2 -> s1 = s2 /\ r1 = r2.
Proof.
  induction s1 as [| a s1 IH]; intros [| b s2] r1 r2 H1 H2 E; cbn [append] in E.
  - injection E as E. split; [reflexivity | exact E].
  - injection E as Eb _. subst b. cbn [occurs] in H2.
    rewrite Ascii.eqb_refl in H2. discriminate H2.
  - injection E as Ea _. subst a. cbn [occurs] in H1.
    rewrite Ascii.eqb_refl in H1. discriminate H1.
  - injection E as Eab E. subst b.
    cbn [occurs] in H1, H2.
    apply orb_false_iff in H1. apply orb_false_iff in H2.
    destruct (IH s2 r1 r2 (proj2 H1) (proj2 H2) E) as [-> ->].
    split; reflexivity.
Qed.

(** X22. The name that multer gives a stored file determines the time and
    the original name it was made from: two files get the same stored name
    only when they have the same original name and arrive in the same
    millisecond. *)
Theorem storage_filename_injective (now1 now2 : Z) (name1 name2 : string) :
  0 <= now1 -> 0 <= now2 ->
  storage_filename now1 name1 = storage_filename now2 name2 ->
  now1 = now2 /\ name1 = name2.
Proof.
  intros H1 H2 E. unfold storage_filename in E. cbn [toString] in E.
  destruct (append_dash_inj _ _ _ _
              (num_toString_has_no_dash now1 H1)
              (num_toString_has_no_dash now2 H2) E) as [Hnow Hname].
  split; [exact (num_toString_inj now1 now2 Hnow) | exact Hname].
Qed.

Lemma storage_filename_injective_witness :
  1700000000000 = 1700000000000 /\ "a-b.png" = "a-b.png".
Proof.
  apply (storage_filename_injective 1700000000000 1700000000000 "a-b.png" "a-b.png");
    [lia | lia | reflexivity].
Defined.

Lemma split_head (c : ascii) (s : string) :
  exists h t,
    split c s = h :: t /\ occurs c h = false /\
    (s = h \/ exists rest, s = h ++ String c rest).
Proof.
  induction s as [| a s [h [t [Hsplit [Hocc Hshape]]]]].
  - exists EmptyString, []. repeat split. left. reflexivity.
  - cbn [split]. destruct (Ascii.eqb a c) eqn:Hac.
    + apply Ascii.eqb_eq in Hac. subst a.
      exists EmptyString, (split c s). repeat split. right. exists s. reflexivity.
    + rewrite Hsplit. exists (String a h), t. split; [reflexivity |].
      split; [cbn [occurs]; rewrite Hac, Hocc; reflexivity |].
      destruct Hshape as [-> | [rest ->]]; [left; reflexivity |].
      right. exists rest. reflexivity.
Qed.

(** X23. The [type] stored with a media row is the part of the file's MIME
    type before its first slash: it holds no slash, and the MIME type is
    either that part alone or that part, a slash and a remainder. *)
Theorem media_type_is_the_part_before_the_slash (file : File) :
  occurs "/" (media_type file) = false /\
  (mimetype file = media_type file \/
   exists rest, mimetype file = media_type file ++ "/" ++ rest).
Proof.
  unfold media_type, index.
  destruct (split_head "/" (mimetype file)) as [h [t [Hsplit [Hocc Hshape]]]].
  rewrite Hsplit. cbn [nth_error]. split; [exact Hocc | exact Hshape].
Qed.

Lemma loadRazorpayKeys_settles_witness :
  let w := snd (POST_admin_payment_settings (platform := Sample.platform)
                  (SampleAccounts.as_admin SampleAccounts.new_keys) Sample.w0) in
  fst (loadRazorpayKeys (platform := Sample.platform) w) = Ret tt /\
  razorpayInstance (snd (loadRazorpayKeys (platform := Sample.platform) w))
  = Some {| key_id := "rzp_live"; key_secret := "n3w" |}.
Proof.
  intros w.
  destruct (loadRazorpayKeys_settles (platform := Sample.platform) w)
    as [Hret [_ [_ [_ Hlast]]]].
  split; [exact Hret |].
  exact (Hlast [] {| PaymentSettings.razorpay_key_id := "rzp_live";
                     PaymentSettings.razorpay_key_secret := "n3w" |}
           eq_refl eq_refl).
Defined.

(** *** Two links in a row *)

Lemma append_cancel_l (p s1 s2 : string) : p ++ s1 = p ++ s2 -> s1 = s2.
Proof.
  induction p as [| a p IH]; cbn [append]; intros E; [exact E |].
  injection E as E. exact (IH E).
Qed.

(** X24. Two links generated one after the other carry different codes:
    when two runs of [POST /api/link/generate] in a row are both answered
    200, the second on the store the first left, the two URLs returned end
    in different codes. *)
Theorem successive_links_differ {platform : Platform}
    (turns1 turns2 : nat) (req1 req2 : Req) (w w1 w2 : World)
    (res1 res2 : Response) :
  sql_eq_reflexive_on_text ->
  POST_link_generate turns1 req1 w = (Ret res1, w1) -> status res1 = 200 ->
  POST_link_generate turns2 req2 w1 = (Ret res2, w2) -> status res2 = 200 ->
  exists code1 code2,
    json res1 = link_ (DOMAIN ++ "/" ++ code1) /\
    json res2 = link_ (DOMAIN ++ "/" ++ code2) /\
    code1 <> code2 /\ json res1 <> json res2.
Proof.
  intros Hrefl Hrun1 Hok1 Hrun2 Hok2.
  assert (Hcase : forall turns req w0 w' res,
            POST_link_generate turns req w0 = (Ret res, w') -> status res = 200 ->
            exists code wa row,
              generateUniqueLinkCode turns w0 = (Ret code, wa) /\
              res = respond 200 (link_ (DOMAIN ++ "/" ++ code)) /\
              links w' = (links w0 ++ [row])%list /\
              Links.link_code row = code).
  { intros turns req w0 w' res Hrun Hok. unfold POST_link_generate in Hrun.
    cbn [route] in Hrun.
    destruct (authenticateToken req) as [r | req'] eqn:Hauth.
    - injection Hrun as <- _.
      destruct (authenticateToken_answer_status req r Hauth) as [H | H];
        unfold Unauthorized, Forbidden in H; rewrite H in Hok; discriminate Hok.
    - destruct (authenticateToken_next req req' Hauth) as [claims ->].
      destruct (link_generate_run turns (set_user claims req) claims w0 eq_refl)
        as [[_ Hnot] | [code [wa [_ [Hgen Hdone]]]]].
      + exfalso. apply (Hnot res); [rewrite Hrun; reflexivity | exact Hok].
      + rewrite Hdone in Hrun. injection Hrun as <- <-.
        exists code, wa. eexists. split; [exact Hgen |]. split; [reflexivity |].
        cbn [links insert_link set_links tick_query].
        rewrite (proj1 (generateUniqueLinkCode_frame turns w0 wa _ Hgen)).
        split; reflexivity. }
  destruct (Hcase _ _ _ _ _ Hrun1 Hok1) as [code1 [wa [row1 [_ [-> [Hlinks1 Hrow1]]]]]].
  destruct (Hcase _ _ _ _ _ Hrun2 Hok2) as [code2 [wb [row2 [Hgen2 [-> _]]]]].
  exists code1, code2. split; [reflexivity |]. split; [reflexivity |].
  assert (Hneq : code1 <> code2).
  { intros ->.
    apply (links_with_code_nil code2 w1 Hrefl
             (generateUniqueLinkCode_unassigned turns2 w1 wb code2 Hgen2)).
    unfold assigned. rewrite Hlinks1, map_app. apply in_or_app. right.
    left. exact Hrow1. }
  split; [exact Hneq |].
  cbn [json respond]. intros E. injection E as E.
  apply append_cancel_l in E. injection E as E. exact (Hneq E).
Qed.

Lemma successive_links_differ_witness :
  let req := Sample.as_alice [("groupId", JNum 3)] in
  let w1 := snd (POST_link_generate (platform := Sample.platform) 1 req
                   SampleAccounts.w_counting) in
  exists code1 code2,
    json (respond 200 (link_ "http://localhost:4000/4321"))
    = link_ (DOMAIN (platform := Sample.platform) ++ "/" ++ code1) /\
    json (respond 200 (link_ "http://localhost:4000/4322"))
    = link_ (DOMAIN (platform := Sample.platform) ++ "/" ++ code2) /\
    code1 <> code2 /\
    json (respond 200 (link_ "http://localhost:4000/4321"))
    <> json (respond 200 (link_ "http://localhost:4000/4322")).
Proof.
  intros req w1.
  apply (successive_links_differ (platform := Sample.platform)
           1 1 req req SampleAccounts.w_counting w1
           (snd (POST_link_generate (platform := Sample.platform) 1 req w1))
           _ _ sample_sql_eq_reflexive);
    reflexivity.
Defined.
